(** * Semantic versions of [templatepython._about]

    A shallow embedding of the version model of
    [src/templatepython/_about.py]: the helper [_verify_number], the class
    [_Segment] and the class [SemanticVersion], together with the parts of
    the Python runtime they call ([int(x, base=10)], [str(int)],
    [str.split], [str.strip], [re.match], tuple comparison, tuple hashing).

    Conventions of the embedding.
    - A Python [str] is a [string]; a character is a code point below 256.
    - An instance of [int] is a [pyint]: an [int] proper, of value in [Z],
      or a [bool]. Conversions between [int] and [str] obey the
      interpreter's limit on the number of digits, at its default of 4300.
    - A call that may raise returns a [result]; exceptions are the
      constructors of [exn].
    - Objects that are neither [int] nor [str] (floats, [None], ...) are
      [POther]; their [repr] is taken to succeed. *)

From Stdlib Require Import ZArith List String Ascii Bool Lia.
Import ListNotations.
Local Open Scope string_scope.
Local Open Scope Z_scope.

(** ** Python values, exceptions, results *)

(** The instances of [int]. A [bool] counts as 1 or 0 in arithmetic,
    comparisons and hashing, and prints as [True] or [False]. *)
Inductive pyint : Type :=
| IInt (z : Z)
| IBool (b : bool).

Definition int_value (n : pyint) : Z :=
  match n with
  | IInt z => z
  | IBool true => 1
  | IBool false => 0
  end.

Coercion int_value : pyint >-> Z.

(** The arguments that the constructors receive. *)
Inductive pyobj : Type :=
| PInt (z : Z)
| PBool (b : bool)
| PStr (s : string)
| POther (descr : string).

(** Payload of the builtin [ValueError]. [InvalidLiteral s] is the error
    that [int(s, base=10)] raises on [s]: "invalid literal for int() with
    base 10", or "Exceeds the limit" when [s] has too many digits. *)
Inductive value_error_detail : Type :=
| InvalidLiteral (literal : string)
| Message (msg : string).

(** Third argument of [PositiveIntegerValueError]: [str | Exception]. *)
Inductive reason : Type :=
| ReasonStr (s : string)
| ReasonExc (e : value_error_detail).

Inductive exn : Type :=
| SegmentValueInvalidError (value reason : string)
| SegmentKindSynonymUsedError (value expected : string)
| PositiveIntegerValueError (field : string) (value : pyobj) (why : reason)
| SegmentKindUnknownError (value : string)
| ValueError (d : value_error_detail)
| TypeError
| KeyError (key : option string).

(** The four exception classes that the module declares itself. *)
Definition is_custom (e : exn) : bool :=
  match e with
  | SegmentValueInvalidError _ _ | SegmentKindSynonymUsedError _ _
  | PositiveIntegerValueError _ _ _ | SegmentKindUnknownError _ => true
  | ValueError _ | TypeError | KeyError _ => false
  end.

Inductive result (A : Type) : Type :=
| Ok (a : A)
| Raise (e : exn).
Arguments Ok {A} a.
Arguments Raise {A} e.

Definition bind {A B : Type} (c : result A) (k : A -> result B) : result B :=
  match c with
  | Ok a => k a
  | Raise e => Raise e
  end.

Notation "x <- c ;; k" := (bind c (fun x => k))
  (at level 61, c at next level, right associativity).

Fixpoint mapM {A B : Type} (f : A -> result B) (l : list A) : result (list B) :=
  match l with
  | [] => Ok []
  | x :: r => y <- f x ;; ys <- mapM f r ;; Ok (y :: ys)
  end.

(** What a rich-comparison method returns. *)
Inductive cmp : Type :=
| NotImplemented
| PyBool (b : bool).

(** ** Characters and strings *)

Definition ord (c : ascii) : Z := Z.of_N (N_of_ascii c).
Definition chr (n : Z) : ascii := ascii_of_N (Z.to_N n).

(** [0-9] *)
Definition is_digit (c : ascii) : bool := (48 <=? ord c) && (ord c <=? 57).
Definition digit_value (c : ascii) : Z := ord c - 48.

(** Whitespace for [str.strip()]: 0x09-0x0d, 0x1c-0x1f, 0x20, 0x85, 0xa0. *)
Definition is_space (c : ascii) : bool :=
  let n := ord c in
  ((9 <=? n) && (n <=? 13)) || ((28 <=? n) && (n <=? 31)) || (n =? 32)
  || (n =? 133) || (n =? 160).

(** Whitespace skipped by [int()]: 0x09-0x0d and 0x20, and the non-ASCII
    spaces 0x85 and 0xa0, which are first rewritten to 0x20. *)
Definition is_int_space (c : ascii) : bool :=
  let n := ord c in
  ((9 <=? n) && (n <=? 13)) || (n =? 32) || (n =? 133) || (n =? 160).

Fixpoint forall_chars (p : ascii -> bool) (s : string) : bool :=
  match s with
  | EmptyString => true
  | String c r => p c && forall_chars p r
  end.

Definition is_empty (s : string) : bool :=
  match s with
  | EmptyString => true
  | String _ _ => false
  end.

(** [sep.join(l)] *)
Fixpoint join (sep : string) (l : list string) : string :=
  match l with
  | [] => ""
  | [x] => x
  | x :: r => x ++ sep ++ join sep r
  end.

(** A character other than the separator. *)
Definition not_sep (sep c : ascii) : bool := negb (Ascii.eqb c sep).

(** [s.split(sep)] for a one-character separator: one more part than
    there are separators, empty parts kept. *)
Fixpoint split (sep : ascii) (s : string) : list string :=
  match s with
  | EmptyString => [""]
  | String c r =>
      if Ascii.eqb c sep then "" :: split sep r
      else match split sep r with
           | [] => [String c ""]
           | p :: ps => String c p :: ps
           end
  end.

Fixpoint lstrip (s : string) : string :=
  match s with
  | EmptyString => ""
  | String c r => if is_space c then lstrip r else s
  end.

Fixpoint rstrip (s : string) : string :=
  match s with
  | EmptyString => ""
  | String c r =>
      let r' := rstrip r in
      if is_space c && is_empty r' then "" else String c r'
  end.

(** [s.strip()] *)
Definition strip (s : string) : string := rstrip (lstrip s).

(** Longest prefix of characters satisfying [p], and the rest. *)
Fixpoint span (p : ascii -> bool) (s : string) : string * string :=
  match s with
  | EmptyString => ("", "")
  | String c r =>
      if p c then let (a, b) := span p r in (String c a, b)
      else ("", s)
  end.

(** ** [str(int)] *)

Definition digit_char (d : Z) : ascii := chr (48 + d).

Fixpoint digits_of (fuel : nat) (n : Z) (acc : string) : string :=
  match fuel with
  | O => acc
  | S f =>
      let acc' := String (digit_char (n mod 10)) acc in
      if n / 10 =? 0 then acc' else digits_of f (n / 10) acc'
  end.

(** Decimal digits of a natural number, most significant first. A number
    has no more decimal digits than binary ones. *)
Definition decimal (n : Z) : string :=
  digits_of (S (Z.to_nat (Z.log2 n))) n "".

(** The decimal text of an integer. *)
Definition decimal_str (z : Z) : string :=
  if z <? 0 then String "-" (decimal (- z)) else decimal z.

(** The limit on the number of digits in conversions between [int] and
    [str] ([sys.get_int_max_str_digits()], by default), and the message of
    the [ValueError] raised by [str(int)] and [repr(int)] past it. *)
Definition int_max_str_digits : Z := 4300.

Definition limit_message : string :=
  "Exceeds the limit (4300 digits) for integer string conversion; use sys.set_int_max_str_digits() to increase the limit".

(** The number of decimal digits of an integer, and whether it is more
    than [int_max_str_digits]. *)
Definition digits_count (z : Z) : Z :=
  Z.of_nat (String.length (decimal (Z.abs z))).

Definition over_limit (z : Z) : bool := int_max_str_digits <? digits_count z.

(** [str(z)] and [repr(z)] for an [int]. *)
Definition str_int (z : Z) : result string :=
  if over_limit z then Raise (ValueError (Message limit_message))
  else Ok (decimal_str z).

(** The text of an instance of [int], and [str] of it. *)
Definition pyint_text (n : pyint) : string :=
  match n with
  | IInt z => decimal_str z
  | IBool true => "True"
  | IBool false => "False"
  end.

Definition str_pyint (n : pyint) : result string :=
  match n with
  | IInt z => str_int z
  | IBool _ => Ok (pyint_text n)
  end.

(** ** [int(x, base=10)] on a string

    Leading whitespace, an optional sign, then digits in which single
    underscores may separate two digits, then trailing whitespace; and no
    more than [int_max_str_digits] digits. *)

Inductive prev_char : Type := PrevDigit | PrevUnderscore.

Fixpoint int_digits (acc : Z) (prev : prev_char) (s : string) : option Z :=
  match s with
  | EmptyString =>
      match prev with PrevDigit => Some acc | PrevUnderscore => None end
  | String c r =>
      if is_digit c then int_digits (10 * acc + digit_value c) PrevDigit r
      else if Ascii.eqb c "_" then
        match prev with
        | PrevDigit => int_digits acc PrevUnderscore r
        | PrevUnderscore => None
        end
      else
        match prev with
        | PrevDigit => if forall_chars is_int_space s then Some acc else None
        | PrevUnderscore => None
        end
  end.

(** The number must start with a digit (no leading underscore). *)
Definition int_unsigned (s : string) : option Z :=
  match s with
  | EmptyString => None
  | String c r =>
      if is_digit c then int_digits (digit_value c) PrevDigit r else None
  end.

Fixpoint int_lstrip (s : string) : string :=
  match s with
  | EmptyString => ""
  | String c r => if is_int_space c then int_lstrip r else s
  end.

(** The value of a string of that syntax. *)
Definition int_literal (s : string) : option Z :=
  match int_lstrip s with
  | String "+" r => int_unsigned r
  | String "-" r => option_map Z.opp (int_unsigned r)
  | t => int_unsigned t
  end.

Fixpoint count_digits (s : string) : nat :=
  match s with
  | EmptyString => O
  | String c r => if is_digit c then S (count_digits r) else count_digits r
  end.

(** [int(s, base=10)]; [None] when it raises [ValueError]. *)
Definition py_int (s : string) : option Z :=
  if int_max_str_digits <? Z.of_nat (count_digits s) then None
  else int_literal s.


(** Value of a run of decimal digits read after the prefix value [acc]. *)
Fixpoint decimal_value (acc : Z) (s : string) : Z :=
  match s with
  | EmptyString => acc
  | String c r => decimal_value (10 * acc + digit_value c) r
  end.

(** ** The pattern [^([^0-9]+)([0-9]+)$]

    [re.match] on [_SEGMENT_SPLIT_RE]: the first group is the longest run
    of characters other than [0-9] (a negated class also matches a line
    feed), the second the longest run of [0-9] after it; both are
    nonempty. The anchor dollar succeeds at the end of the string and also
    just before a line feed that is the last character. The result is
    [m.groups()]. *)
Definition line_feed : ascii := chr 10.

Definition at_dollar (rest : string) : bool :=
  match rest with
  | EmptyString => true
  | String c EmptyString => Ascii.eqb c line_feed
  | _ => false
  end.

Definition _SEGMENT_SPLIT_RE_match (value : string) : option (string * string) :=
  let (g0, r) := span (fun c => negb (is_digit c)) value in
  let (g1, rest) := span is_digit r in
  if negb (is_empty g0) && negb (is_empty g1) && at_dollar rest
  then Some (g0, g1) else None.

(** ** Comparison of the values found in sort keys *)

#[local] Unset Elimination Schemes.
Inductive pyval : Type :=
| VInt (z : Z)
| VNone
| VTuple (l : list pyval).
#[local] Set Elimination Schemes.

(** [a == b]. Never raises; values of different types are unequal. *)
Fixpoint py_eq (a b : pyval) : bool :=
  match a, b with
  | VInt x, VInt y => x =? y
  | VNone, VNone => true
  | VTuple xs, VTuple ys =>
      (fix go (xs ys : list pyval) {struct xs} : bool :=
         match xs, ys with
         | [], [] => true
         | x :: xs', y :: ys' => py_eq x y && go xs' ys'
         | _, _ => false
         end) xs ys
  | _, _ => false
  end.

(** [a < b]. Tuples: the first index at which the items are not [==]
    decides, by [<] on those two items; when one tuple is a prefix of the
    other, the shorter is the smaller. [None] (raise [TypeError]) for
    operands [<] is not defined on. *)
Fixpoint py_lt (a b : pyval) : option bool :=
  match a, b with
  | VInt x, VInt y => Some (x <? y)
  | VTuple xs, VTuple ys =>
      (fix go (xs ys : list pyval) {struct xs} : option bool :=
         match xs, ys with
         | [], [] => Some false
         | [], _ :: _ => Some true
         | _ :: _, [] => Some false
         | x :: xs', y :: ys' =>
             if py_eq x y then go xs' ys' else py_lt x y
         end) xs ys
  | _, _ => None
  end.

Definition tuple_eq (a b : pyval) : result cmp := Ok (PyBool (py_eq a b)).

Definition tuple_lt (a b : pyval) : result cmp :=
  match py_lt a b with
  | Some r => Ok (PyBool r)
  | None => Raise TypeError
  end.

(** ** Hashing

    [hash()] of strings is salted per process, so the hash functions of
    the runtime are parameters. A tuple's hash is computed from the hashes
    of its items, in order. *)
Class Hasher : Type := {
  hash_str : string -> Z;
  hash_int : Z -> Z;
  hash_None : Z;
  hash_tuple : list Z -> Z
}.

Definition hash_opt {A : Type} `{Hasher} (h : A -> Z) (o : option A) : Z :=
  match o with
  | Some x => h x
  | None => hash_None
  end.

(** A hasher to run the definitions with. *)
Definition sample_hasher : Hasher := {|
  hash_str := fun s => Z.of_nat (String.length s);
  hash_int := fun z => z mod 2305843009213693951;
  hash_None := 1;
  hash_tuple := fun l => fold_left (fun acc h => 31 * acc + h) l 7
|}.

(** ** [PositiveIntegerValueError(field, value, reason)]

    The constructor of the exception formats its message with
    [repr(value)], which raises the builtin [ValueError] for an [int] of
    too many digits: then that error is what the [raise] statement
    propagates. *)
Definition repr_fails (value : pyobj) : bool :=
  match value with
  | PInt z => over_limit z
  | _ => false
  end.

Definition raise_PositiveIntegerValueError {A : Type}
  (field : string) (value : pyobj) (why : reason) : result A :=
  if repr_fails value then Raise (ValueError (Message limit_message))
  else Raise (PositiveIntegerValueError field value why).

(** ** [_verify_number] *)
Definition _verify_number (value : pyobj) (field_label : string)
  : result pyint :=
  ret <- match value with
         | PStr s =>
             match py_int s with
             | Some n => Ok (PInt n)
             | None =>
                 raise_PositiveIntegerValueError field_label (PStr s)
                   (ReasonExc (InvalidLiteral s))
             end
         | _ => Ok value
         end ;;
  match ret with
  | PInt n =>
      if n <? 0
      then raise_PositiveIntegerValueError field_label ret
             (ReasonStr "Negative")
      else Ok (IInt n)
  | PBool b => Ok (IBool b)
  | _ =>
      raise_PositiveIntegerValueError field_label ret
        (ReasonStr "Neither int nor str")
  end.

(** ** The instances and the universe of objects *)

(** The number of a segment is what [int()] returned for its digits: an
    [int] proper, kept as its value. *)
Record Segment : Type := mkSegment {
  _kind : option string;
  _number : option Z
}.

Record Version : Type := mkVersion {
  _major : pyint;
  _minor : pyint;
  _patch : pyint;
  _segment : Segment
}.

(** Whatever may stand on the other side of a comparison. *)
Inductive object : Type :=
| OSegment (s : Segment)
| OVersion (v : Version)
| OValue (v : pyobj).

Definition is_None {A : Type} (o : option A) : bool :=
  match o with
  | None => true
  | Some _ => false
  end.

(** [f"{x}"] for an optional string and an optional integer. *)
Definition fmt_kind (k : option string) : string :=
  match k with
  | Some s => s
  | None => "None"
  end.

Definition fmt_number (n : option Z) : result string :=
  match n with
  | Some z => str_int z
  | None => Ok "None"
  end.

Definition val_of_number (n : option Z) : pyval :=
  match n with
  | Some z => VInt z
  | None => VNone
  end.

(** ** class [_Segment] *)
Module _Segment.

Definition kind (self : Segment) : option string := _kind self.
Definition number (self : Segment) : option Z := _number self.

Definition _verify_kind (value : string) : result string :=
  if String.eqb value "dev" || String.eqb value "alpha"
     || String.eqb value "beta" || String.eqb value "rc"
     || String.eqb value "post"
  then Ok value
  else if String.eqb value "a"
  then Raise (SegmentKindSynonymUsedError value "alpha")
  else if String.eqb value "b"
  then Raise (SegmentKindSynonymUsedError value "beta")
  else if String.eqb value "c" || String.eqb value "pre"
          || String.eqb value "preview"
  then Raise (SegmentKindSynonymUsedError value "rc")
  else if String.eqb value "r" || String.eqb value "rev"
  then Raise (SegmentKindSynonymUsedError value "post")
  else Raise (SegmentKindUnknownError value).

Definition __init__ (value : option string) : result Segment :=
  match value with
  | None => Ok (mkSegment None None)
  | Some value =>
      match _SEGMENT_SPLIT_RE_match value with
      | Some (g0, g1) =>
          kind <- _verify_kind g0 ;;
          number <- _verify_number (PStr g1) "segment.number" ;;
          Ok (mkSegment (Some kind) (Some (int_value number)))
      | None => Raise (SegmentValueInvalidError value "Cannot extract parts")
      end
  end.

(** The dict literal of [sort_key], and its subscript. *)
Definition rank_table : list (option string * Z) :=
  [ (Some "dev", 0); (Some "alpha", 1); (Some "beta", 2); (Some "rc", 3);
    (None, 4); (Some "post", 5) ].

Definition key_eqb (a b : option string) : bool :=
  match a, b with
  | Some x, Some y => String.eqb x y
  | None, None => true
  | _, _ => false
  end.

Fixpoint getitem (d : list (option string * Z)) (k : option string) : result Z :=
  match d with
  | [] => Raise (KeyError k)
  | (k', v) :: r => if key_eqb k' k then Ok v else getitem r k
  end.

Definition sort_key (self : Segment) : result pyval :=
  a <- getitem rank_table (kind self) ;;
  let b := number self in
  Ok (VTuple [VInt a; val_of_number b]).

Definition isinstance (other : object) : bool :=
  match other with
  | OSegment _ => true
  | _ => false
  end.

Definition __eq__ (self : Segment) (other : object) : result cmp :=
  match other with
  | OSegment other =>
      a <- sort_key self ;; b <- sort_key other ;; tuple_eq a b
  | _ => Ok NotImplemented
  end.

Definition __lt__ (self : Segment) (other : object) : result cmp :=
  match other with
  | OSegment other =>
      a <- sort_key self ;; b <- sort_key other ;; tuple_lt a b
  | _ => Ok NotImplemented
  end.

Definition __hash__ `{Hasher} (self : Segment) : Z :=
  hash_tuple [hash_opt hash_str (kind self); hash_opt hash_int (number self)].

Definition isnone (self : Segment) : result bool :=
  if negb (Bool.eqb (is_None (kind self)) (is_None (number self)))
  then Raise (ValueError (Message "Only one of kind and number is None"))
  else Ok (is_None (kind self)).

Definition __str__ (self : Segment) : result string :=
  none <- isnone self ;;
  if none then Ok ""
  else n <- fmt_number (number self) ;; Ok (fmt_kind (kind self) ++ n).

(** The comparisons that [functools.total_ordering] adds to the class,
    derived from [__lt__], and the inherited [__ne__]. In the branches
    where [__lt__] has returned a boolean the other operand is a segment,
    so that [self == other] and [self != other] are the results of
    [__eq__] and [__ne__]. *)
Definition __ne__ (self : Segment) (other : object) : result cmp :=
  r <- __eq__ self other ;;
  match r with
  | NotImplemented => Ok NotImplemented
  | PyBool b => Ok (PyBool (negb b))
  end.

Definition __gt__ (self : Segment) (other : object) : result cmp :=
  op_result <- __lt__ self other ;;
  match op_result with
  | NotImplemented => Ok NotImplemented
  | PyBool true => Ok (PyBool false)
  | PyBool false => __ne__ self other
  end.

Definition __le__ (self : Segment) (other : object) : result cmp :=
  op_result <- __lt__ self other ;;
  match op_result with
  | NotImplemented => Ok NotImplemented
  | PyBool true => Ok (PyBool true)
  | PyBool false => __eq__ self other
  end.

Definition __ge__ (self : Segment) (other : object) : result cmp :=
  op_result <- __lt__ self other ;;
  match op_result with
  | NotImplemented => Ok NotImplemented
  | PyBool b => Ok (PyBool (negb b))
  end.

End _Segment.

(** ** class [SemanticVersion] *)
Module SemanticVersion.

Definition __init__ (major minor patch : pyobj) (segment : option string)
  : result Version :=
  major <- _verify_number major "major" ;;
  minor <- _verify_number minor "minor" ;;
  patch <- _verify_number patch "patch" ;;
  segment <- _Segment.__init__ segment ;;
  Ok (mkVersion major minor patch segment).

Definition major (self : Version) : pyint := _major self.
Definition minor (self : Version) : pyint := _minor self.
Definition patch (self : Version) : pyint := _patch self.
Definition segment (self : Version) : Segment := _segment self.

(** The local helper of [from_string]; its argument is always a string. *)
Definition _to_int (x : string) : result Z :=
  match py_int x with
  | Some n => Ok n
  | None => Raise (ValueError (InvalidLiteral x))
  end.

Definition from_string (string : string) : result Version :=
  let s := split "." string in
  if (4 <? Z.of_nat (List.length s))
  then Raise (ValueError
                (Message ("Cannot parse " ++ string ++ ": too much elements")))
  else
    let s := (s ++ repeat "" (4 - List.length s))%list in
    nums <- mapM _to_int (removelast s) ;;
    match nums with
    | [major; minor; patch] =>
        let segment := strip (last s "") in
        let segment := if is_empty segment then None else Some segment in
        __init__ (PInt major) (PInt minor) (PInt patch) segment
    | _ => Raise (ValueError (Message "wrong number of values to unpack"))
    end.

Definition _segment_text_to_number (txt : option string) : result Z :=
  match txt with
  | None => Ok 5
  | Some t =>
      if String.eqb t "dev" then Ok 1
      else if String.eqb t "a" || String.eqb t "alpha" then Ok 2
      else if String.eqb t "b" || String.eqb t "beta" then Ok 3
      else if String.eqb t "c" || String.eqb t "rc" || String.eqb t "pre"
              || String.eqb t "preview" then Ok 4
      else if String.eqb t "r" || String.eqb t "rev" || String.eqb t "post"
      then Ok 6
      else Raise (ValueError (Message t))
  end.

Definition sort_key (self : Version) : result pyval :=
  k <- _Segment.sort_key (segment self) ;;
  Ok (VTuple [VInt (major self); VInt (minor self); VInt (patch self); k]).

Definition isinstance (other : object) : bool :=
  match other with
  | OVersion _ => true
  | _ => false
  end.

Definition __eq__ (self : Version) (other : object) : result cmp :=
  match other with
  | OVersion other =>
      a <- sort_key self ;; b <- sort_key other ;; tuple_eq a b
  | _ => Ok NotImplemented
  end.

Definition __lt__ (self : Version) (other : object) : result cmp :=
  match other with
  | OVersion other =>
      a <- sort_key self ;; b <- sort_key other ;; tuple_lt a b
  | _ => Ok NotImplemented
  end.

Definition __hash__ `{Hasher} (self : Version) : Z :=
  hash_tuple [hash_int (major self); hash_int (minor self);
              hash_int (patch self); _Segment.__hash__ (segment self)].

(** The items of [elts]: an instance of [int], or the segment; and [str]
    of an item. *)
Inductive elt : Type :=
| EInt (n : pyint)
| ESegment (s : Segment).

Definition str_elt (x : elt) : result string :=
  match x with
  | EInt n => str_pyint n
  | ESegment s => _Segment.__str__ s
  end.

Definition __str__ (self : Version) : result string :=
  let elts := [EInt (major self); EInt (minor self); EInt (patch self)] in
  none <- _Segment.isnone (segment self) ;;
  let elts := if negb none then (elts ++ [ESegment (segment self)])%list
              else elts in
  texts <- mapM str_elt elts ;;
  Ok (join "." texts).

(** [self != other]: the inherited [__ne__] negates [__eq__]. *)
Definition __ne__ (self : Version) (other : object) : result cmp :=
  r <- __eq__ self other ;;
  match r with
  | NotImplemented => Ok NotImplemented
  | PyBool b => Ok (PyBool (negb b))
  end.

(** [__gt__] as [functools.total_ordering] derives it from [__lt__]:
    [not (self < other) and self != other]. *)
Definition __gt__ (self : Version) (other : object) : result cmp :=
  op_result <- __lt__ self other ;;
  match op_result with
  | NotImplemented => Ok NotImplemented
  | PyBool true => Ok (PyBool false)
  | PyBool false => __ne__ self other
  end.

(** The operators [a == b], [a < b] and [a > b] between two versions:
    the method of the left operand, then the reflected method of the
    right one. When both return [NotImplemented], which they never do for
    two versions, [==] falls back on identity and the orderings raise
    [TypeError]. *)
Definition op_eq (a b : Version) : result bool :=
  r <- __eq__ a (OVersion b) ;;
  match r with
  | PyBool x => Ok x
  | NotImplemented =>
      r' <- __eq__ b (OVersion a) ;;
      match r' with
      | PyBool x => Ok x
      | NotImplemented => Ok false
      end
  end.

Definition op_lt (a b : Version) : result bool :=
  r <- __lt__ a (OVersion b) ;;
  match r with
  | PyBool x => Ok x
  | NotImplemented =>
      r' <- __gt__ b (OVersion a) ;;
      match r' with
      | PyBool x => Ok x
      | NotImplemented => Raise TypeError
      end
  end.

Definition op_gt (a b : Version) : result bool :=
  r <- __gt__ a (OVersion b) ;;
  match r with
  | PyBool x => Ok x
  | NotImplemented =>
      r' <- __lt__ b (OVersion a) ;;
      match r' with
      | PyBool x => Ok x
      | NotImplemented => Raise TypeError
      end
  end.

(** [__le__] and [__ge__] as [functools.total_ordering] derives them from
    [__lt__]: [self < other or self == other], and [not self < other]. *)
Definition __le__ (self : Version) (other : object) : result cmp :=
  op_result <- __lt__ self other ;;
  match op_result with
  | NotImplemented => Ok NotImplemented
  | PyBool true => Ok (PyBool true)
  | PyBool false => __eq__ self other
  end.

Definition __ge__ (self : Version) (other : object) : result cmp :=
  op_result <- __lt__ self other ;;
  match op_result with
  | NotImplemented => Ok NotImplemented
  | PyBool b => Ok (PyBool (negb b))
  end.

End SemanticVersion.

(** ** Vocabulary of the statements *)

(** Instances that the constructors can return. *)
Definition constructed (s : Segment) : Prop :=
  exists value, _Segment.__init__ value = Ok s.

Definition constructed_version (v : Version) : Prop :=
  exists major minor patch segment,
    SemanticVersion.__init__ major minor patch segment = Ok v.

(** Precedence of the kinds: dev=0, alpha=1, beta=2, rc=3, none=4, post=5. *)
Inductive kind_rank : option string -> Z -> Prop :=
| rank_dev : kind_rank (Some "dev") 0
| rank_alpha : kind_rank (Some "alpha") 1
| rank_beta : kind_rank (Some "beta") 2
| rank_rc : kind_rank (Some "rc") 3
| rank_none : kind_rank None 4
| rank_post : kind_rank (Some "post") 5.

(** [a < b] and [a == b] evaluate to [True]. *)
Definition seg_lt (a b : Segment) : Prop :=
  _Segment.__lt__ a (OSegment b) = Ok (PyBool true).
Definition seg_eq (a b : Segment) : Prop :=
  _Segment.__eq__ a (OSegment b) = Ok (PyBool true).

(** Order on optional numbers: both present and increasing. *)
Definition number_lt (n m : option Z) : Prop :=
  match n, m with
  | Some x, Some y => x < y
  | _, _ => False
  end.


(** The operator [a < b] between versions evaluates to [True]. *)
Definition ver_lt (a b : Version) : Prop := SemanticVersion.op_lt a b = Ok true.

(** [x < y], [x > y] and [x == y] for the outcomes of two constructor
    calls. *)
Definition lt_of (x y : result Version) : result bool :=
  a <- x ;; b <- y ;; SemanticVersion.op_lt a b.
Definition gt_of (x y : result Version) : result bool :=
  a <- x ;; b <- y ;; SemanticVersion.op_gt a b.
Definition eq_of (x y : result Version) : result bool :=
  a <- x ;; b <- y ;; SemanticVersion.op_eq a b.


(** The segment pattern as the specification words it: one or more
    non-digit characters immediately followed by one or more digit
    characters, with nothing else. *)
Definition non_digit (c : ascii) : bool := negb (is_digit c).

Definition matches_segment_pattern (s : string) : Prop :=
  exists k d,
    s = k ++ d /\ is_empty k = false /\ is_empty d = false /\
    forall_chars non_digit k = true /\ forall_chars is_digit d = true.





(** The operator [a == b] between versions evaluates to [True]. *)
Definition ver_eq (a b : Version) : Prop := SemanticVersion.op_eq a b = Ok true.

(** The five kinds that the constructor of a segment accepts. *)
Definition kinds : list string := ["dev"; "alpha"; "beta"; "rc"; "post"].

(** The sort key of a segment as a pair of integers: its rank (-1 when the
    kind is not in the table) and its number (0 when absent). *)
Definition seg_key (s : Segment) : Z * Z :=
  (match _Segment.getitem _Segment.rank_table (_kind s) with
   | Ok r => r
   | Raise _ => -1
   end,
   match _number s with
   | Some n => n
   | None => 0
   end).

(** Lexicographic order on pairs of integers. *)
Definition lex2 (x y : Z * Z) : Prop :=
  fst x < fst y \/ (fst x = fst y /\ snd x < snd y).


(** Lexicographic order of the numbers of two versions, then of the keys
    of their segments. *)
Definition ver_lex (a b : Version) : Prop :=
  _major a < _major b \/
  ((_major a : Z) = _major b /\
   (_minor a < _minor b \/
    ((_minor a : Z) = _minor b /\
     (_patch a < _patch b \/
      ((_patch a : Z) = _patch b /\
       lex2 (seg_key (_segment a)) (seg_key (_segment b))))))).


(** The characters of a printed version: digits, the dot, and lowercase
    letters. *)
Definition version_char (c : ascii) : bool :=
  is_digit c || Ascii.eqb c "." || ((97 <=? ord c) && (ord c <=? 122)).


(** An [int] proper, not negative and of no more digits than the limit;
    a version with three such numbers. Every number that [int()] returned
    for a string is within the limit. *)
Definition plain (n : pyint) : Prop :=
  exists z, n = IInt z /\ 0 <= z /\ digits_count z <= int_max_str_digits.

Definition plain_version (v : Version) : Prop :=
  plain (_major v) /\ plain (_minor v) /\ plain (_patch v).

(** The three numbers of a version have no more digits than the limit. *)
Definition within_limit (v : Version) : Prop :=
  digits_count (_major v) <= int_max_str_digits /\
  digits_count (_minor v) <= int_max_str_digits /\
  digits_count (_patch v) <= int_max_str_digits.

(** Two versions with the same numbers, as integers, and the same
    segment. *)
Definition same_fields (a b : Version) : Prop :=
  int_value (_major a) = int_value (_major b) /\
  int_value (_minor a) = int_value (_minor b) /\
  int_value (_patch a) = int_value (_patch b) /\
  _segment a = _segment b.

(** An argument that is not a [bool]. *)
Definition not_bool (v : pyobj) : Prop :=
  match v with
  | PBool _ => False
  | _ => True
  end.

(** A version none of whose numbers is a [bool]. *)
Definition is_bool (n : pyint) : bool :=
  match n with
  | IBool _ => true
  | IInt _ => false
  end.

Definition no_bool_field (v : Version) : Prop :=
  is_bool (_major v) = false /\ is_bool (_minor v) = false /\
  is_bool (_patch v) = false.

(** * Properties *)

(** ** Characters *)

Lemma ord_range (c : ascii) : 0 <= ord c < 256.
Proof.
  unfold ord. pose proof (N_ascii_bounded c). lia.
Qed.

Lemma ord_chr (n : Z) : 0 <= n < 256 -> ord (chr n) = n.
Proof.
  intros H. unfold ord, chr. rewrite N_ascii_embedding; lia.
Qed.

Lemma chr_ord (c : ascii) : chr (ord c) = c.
Proof.
  unfold ord, chr. rewrite N2Z.id. apply ascii_N_embedding.
Qed.

Lemma ord_inj (c d : ascii) : ord c = ord d -> c = d.
Proof.
  intros H. rewrite <- (chr_ord c), <- (chr_ord d). now rewrite H.
Qed.

Lemma digit_char_digit (d : Z) :
  0 <= d < 10 -> is_digit (digit_char d) = true /\ digit_value (digit_char d) = d.
Proof.
  intros H. unfold is_digit, digit_value, digit_char.
  rewrite ord_chr by lia. split; lia.
Qed.

Lemma is_digit_not_space (c : ascii) : is_digit c = true -> is_space c = false.
Proof.
  unfold is_digit, is_space. lia.
Qed.

Lemma is_int_space_is_space (c : ascii) : is_int_space c = true -> is_space c = true.
Proof.
  unfold is_int_space, is_space. lia.
Qed.

Lemma is_digit_not_sep (c : ascii) :
  is_digit c = true -> Ascii.eqb c "." = false.
Proof.
  intros H. apply Ascii.eqb_neq. intros ->. discriminate H.
Qed.

Lemma is_space_not_sep (c : ascii) :
  is_space c = true -> Ascii.eqb c "." = false.
Proof.
  intros H. apply Ascii.eqb_neq. intros ->. discriminate H.
Qed.

(** ** Strings *)

Lemma append_nil_r (s : string) : s ++ "" = s.
Proof.
  induction s as [|c s IH]; simpl; [reflexivity | now rewrite IH].
Qed.

Lemma append_assoc (a b c : string) : (a ++ b) ++ c = a ++ (b ++ c).
Proof.
  induction a as [|x a IH]; simpl; [reflexivity | now rewrite IH].
Qed.

Lemma forall_chars_app (p : ascii -> bool) (a b : string) :
  forall_chars p (a ++ b) = forall_chars p a && forall_chars p b.
Proof.
  induction a as [|x a IH]; simpl; [reflexivity|].
  rewrite IH. now rewrite andb_assoc.
Qed.

Lemma forall_chars_impl (p q : ascii -> bool) (s : string) :
  (forall c, p c = true -> q c = true) ->
  forall_chars p s = true -> forall_chars q s = true.
Proof.
  intros Hpq. induction s as [|x s IH]; simpl; [reflexivity|].
  intros H. apply andb_true_iff in H as [Hx Hs].
  rewrite (Hpq _ Hx), (IH Hs). reflexivity.
Qed.

Lemma is_empty_true (s : string) : is_empty s = true <-> s = "".
Proof.
  destruct s; simpl; split; congruence.
Qed.

(** ** [str(int)] and [int()] are inverse on the naturals *)

Lemma decimal_value_app (a : Z) (p q : string) :
  decimal_value a (p ++ q) = decimal_value (decimal_value a p) q.
Proof.
  revert a. induction p as [|c p IH]; intros a; simpl; [reflexivity | apply IH].
Qed.

Lemma digits_of_spec (fuel : nat) :
  forall n acc,
    (0 < fuel)%nat -> 0 <= n < 10 ^ Z.of_nat fuel ->
    exists p,
      digits_of fuel n acc = p ++ acc /\
      forall_chars is_digit p = true /\
      is_empty p = false /\
      forall a, decimal_value a p = a * 10 ^ Z.of_nat (String.length p) + n.
Proof.
  induction fuel as [|f IH]; intros n acc Hf Hn; [lia|].
  assert (Hd : 0 <= n mod 10 < 10) by (apply Z.mod_pos_bound; lia).
  destruct (digit_char_digit _ Hd) as [Hdig Hval].
  pose proof (Z.div_mod n 10 ltac:(lia)) as Hdm.
  simpl digits_of. destruct (n / 10 =? 0) eqn:Hq.
  - apply Z.eqb_eq in Hq.
    exists (String (digit_char (n mod 10)) "").
    cbn [append forall_chars is_empty decimal_value String.length].
    rewrite Hdig, Hval. repeat split; try reflexivity.
    intros a. change (10 ^ Z.of_nat 1) with 10. lia.
  - apply Z.eqb_neq in Hq.
    assert (Hq0 : 0 <= n / 10) by (apply Z.div_pos; lia).
    assert (Hlt : n / 10 < 10 ^ Z.of_nat f).
    { apply Z.div_lt_upper_bound; [lia|].
      rewrite Nat2Z.inj_succ, Z.pow_succ_r in Hn; lia. }
    assert (Hf' : (0 < f)%nat).
    { destruct f; [simpl in Hlt; lia | lia]. }
    destruct (IH (n / 10) (String (digit_char (n mod 10)) acc) Hf'
                 (conj Hq0 Hlt)) as (p & Hp & Hall & Hne & Hv).
    exists (p ++ String (digit_char (n mod 10)) "").
    rewrite Hp, append_assoc. cbn [append]. split; [reflexivity|].
    split; [|split].
    + rewrite forall_chars_app, Hall. cbn [forall_chars andb]. now rewrite Hdig.
    + destruct p; [discriminate Hne | reflexivity].
    + intros a. rewrite decimal_value_app, Hv. cbn [decimal_value].
      rewrite Hval.
      replace (String.length (p ++ String (digit_char (n mod 10)) ""))
        with (S (String.length p)).
      * rewrite Nat2Z.inj_succ, Z.pow_succ_r by lia. lia.
      * clear. induction p as [|x p IHp]; simpl; [reflexivity | now rewrite <- IHp].
Qed.

Lemma decimal_spec (n : Z) :
  0 <= n ->
  forall_chars is_digit (decimal n) = true /\
  is_empty (decimal n) = false /\
  decimal_value 0 (decimal n) = n.
Proof.
  intros Hn. unfold decimal.
  assert (Hb : 0 <= n < 10 ^ Z.of_nat (S (Z.to_nat (Z.log2 n)))).
  { split; [assumption|].
    rewrite Nat2Z.inj_succ, Z2Nat.id by apply Z.log2_nonneg.
    destruct (Z.eq_dec n 0) as [->|Hnz]; [reflexivity|].
    pose proof (Z.log2_spec n ltac:(lia)) as [_ Hup].
    eapply Z.lt_le_trans; [exact Hup|].
    apply Z.pow_le_mono_l. lia. }
  destruct (digits_of_spec _ n "" (Nat.lt_0_succ _) Hb) as (p & Hp & Hall & Hne & Hv).
  rewrite Hp, append_nil_r. repeat split; try assumption.
  rewrite Hv. lia.
Qed.

Lemma int_digits_all_digits (p : string) :
  forall a, forall_chars is_digit p = true ->
            int_digits a PrevDigit p = Some (decimal_value a p).
Proof.
  induction p as [|c p IH]; intros a H; simpl in *; [reflexivity|].
  apply andb_true_iff in H as [Hc Hp]. rewrite Hc. now apply IH.
Qed.

Lemma int_lstrip_digit (c : ascii) (r : string) :
  is_digit c = true -> int_lstrip (String c r) = String c r.
Proof.
  intros H. simpl.
  assert (Hs : is_int_space c = false).
  { destruct (is_int_space c) eqn:E; [|reflexivity].
    apply is_int_space_is_space in E.
    now rewrite (is_digit_not_space _ H) in E. }
  now rewrite Hs.
Qed.

(** A nonempty run of digits has its decimal value in the syntax of
    [int()]. *)
Lemma int_literal_all_digits (s : string) :
  forall_chars is_digit s = true -> is_empty s = false ->
  int_literal s = Some (decimal_value 0 s).
Proof.
  intros Hall Hne. destruct s as [|c r]; [discriminate Hne|].
  simpl in Hall. apply andb_true_iff in Hall as [Hc Hr].
  unfold int_literal. rewrite (int_lstrip_digit _ _ Hc).
  assert (Hu : int_unsigned (String c r) = Some (decimal_value 0 (String c r))).
  { simpl. rewrite Hc. now apply int_digits_all_digits. }
  destruct (Ascii.eqb_spec c "+") as [->|Hp]; [discriminate Hc|].
  destruct (Ascii.eqb_spec c "-") as [->|Hm]; [discriminate Hc|].
  rewrite <- Hu.
  destruct c as [[] [] [] [] [] [] [] []]; try reflexivity; congruence.
Qed.

Lemma count_digits_all (s : string) :
  forall_chars is_digit s = true -> count_digits s = String.length s.
Proof.
  induction s as [|c s IH]; [reflexivity|]. cbn [forall_chars count_digits].
  intros H. apply andb_true_iff in H as [Hc Hs].
  rewrite Hc, (IH Hs). reflexivity.
Qed.

Lemma count_digits_app (a b : string) :
  count_digits (a ++ b) = (count_digits a + count_digits b)%nat.
Proof.
  induction a as [|c a IH]; [reflexivity|]. cbn [append count_digits].
  destruct (is_digit c); rewrite IH; reflexivity.
Qed.

(** A nonempty run of at most [int_max_str_digits] digits is read by
    [int()] as its decimal value; a longer one is refused. *)
Lemma py_int_all_digits (s : string) :
  forall_chars is_digit s = true -> is_empty s = false ->
  Z.of_nat (String.length s) <= int_max_str_digits ->
  py_int s = Some (decimal_value 0 s).
Proof.
  intros Hall Hne Hlen. unfold py_int. rewrite (count_digits_all s Hall).
  destruct (int_max_str_digits <? Z.of_nat (String.length s)) eqn:E;
    [apply Z.ltb_lt in E; lia|].
  now apply int_literal_all_digits.
Qed.


Lemma py_int_literal (s : string) (n : Z) :
  py_int s = Some n ->
  int_literal s = Some n /\ Z.of_nat (count_digits s) <= int_max_str_digits.
Proof.
  unfold py_int.
  destruct (int_max_str_digits <? Z.of_nat (count_digits s)) eqn:E;
    [discriminate|].
  apply Z.ltb_ge in E. auto.
Qed.

Lemma string_length_app (a b : string) :
  String.length (a ++ b) = (String.length a + String.length b)%nat.
Proof.
  induction a as [|c a IH]; simpl; [reflexivity | now rewrite IH].
Qed.

Lemma digits_of_length (fuel : nat) :
  forall n acc k,
    0 <= n < 10 ^ Z.of_nat k -> (1 <= k)%nat ->
    (String.length (digits_of fuel n acc) <= k + String.length acc)%nat.
Proof.
  induction fuel as [|f IH]; intros n acc k Hn Hk; [simpl; lia|].
  cbn [digits_of]. destruct (n / 10 =? 0) eqn:Hq.
  - simpl. lia.
  - apply Z.eqb_neq in Hq.
    assert (Hq0 : 0 <= n / 10) by (apply Z.div_pos; lia).
    destruct k as [|[|k]]; [lia| |].
    + exfalso. apply Hq. apply Z.div_small. change (10 ^ Z.of_nat 1) with 10 in Hn.
      lia.
    + assert (Hlt : n / 10 < 10 ^ Z.of_nat (S k)).
      { apply Z.div_lt_upper_bound; [lia|].
        rewrite (Nat2Z.inj_succ (S k)), Z.pow_succ_r in Hn; lia. }
      specialize (IH (n / 10) (String (digit_char (n mod 10)) acc) (S k)
                     (conj Hq0 Hlt) ltac:(lia)).
      simpl in IH |- *. lia.
Qed.

Lemma decimal_length (n : Z) (k : nat) :
  0 <= n < 10 ^ Z.of_nat k -> (1 <= k)%nat ->
  (String.length (decimal n) <= k)%nat.
Proof.
  intros Hn Hk. unfold decimal.
  pose proof (digits_of_length (S (Z.to_nat (Z.log2 n))) n "" k Hn Hk) as H.
  change (String.length "") with 0%nat in H. lia.
Qed.

Lemma py_int_decimal (n : Z) :
  0 <= n -> digits_count n <= int_max_str_digits ->
  py_int (decimal n) = Some n.
Proof.
  intros Hn Hl. destruct (decimal_spec n Hn) as (Hall & Hne & Hv).
  unfold digits_count in Hl. rewrite Z.abs_eq in Hl by assumption.
  rewrite py_int_all_digits; try assumption. now rewrite Hv.
Qed.

Lemma over_limit_false (n : Z) :
  digits_count n <= int_max_str_digits -> over_limit n = false.
Proof.
  intros Hn. unfold over_limit. apply Z.ltb_ge. exact Hn.
Qed.

Lemma decimal_str_nonneg (n : Z) : 0 <= n -> decimal_str n = decimal n.
Proof.
  intros Hn. unfold decimal_str.
  destruct (n <? 0) eqn:E; [apply Z.ltb_lt in E; lia | reflexivity].
Qed.

Lemma str_int_nonneg (n : Z) :
  0 <= n -> digits_count n <= int_max_str_digits ->
  str_int n = Ok (decimal n).
Proof.
  intros Hn Hl. unfold str_int.
  now rewrite (over_limit_false n Hl), (decimal_str_nonneg n Hn).
Qed.

(** What [int()] returns has no more digits than the limit. *)
Lemma int_digits_bound (s : string) :
  forall acc prev n j,
    int_digits acc prev s = Some n -> 0 <= acc < 10 ^ Z.of_nat j ->
    0 <= n < 10 ^ Z.of_nat (j + count_digits s).
Proof.
  induction s as [|c s IH]; intros acc prev n j; cbn [int_digits count_digits].
  - destruct prev; [|discriminate]. intros [= <-] H.
    now rewrite Nat.add_0_r.
  - destruct (is_digit c) eqn:Hd.
    + intros H Hacc.
      replace (j + S (count_digits s))%nat with (S j + count_digits s)%nat
        by lia.
      apply (IH _ _ _ _ H).
      rewrite Nat2Z.inj_succ, Z.pow_succ_r by lia.
      unfold is_digit in Hd. unfold digit_value. lia.
    + assert (Hmono : 10 ^ Z.of_nat j <= 10 ^ Z.of_nat (j + count_digits s)).
      { apply Z.pow_le_mono_r; lia. }
      destruct (Ascii.eqb c "_").
      * destruct prev; [|discriminate]. intros H Hacc.
        apply (IH _ _ _ _ H Hacc).
      * destruct prev; [|discriminate].
        destruct (forall_chars is_int_space (String c s)); [|discriminate].
        intros [= <-] Hacc. lia.
Qed.

Lemma int_unsigned_bound (s : string) (n : Z) :
  int_unsigned s = Some n -> 0 <= n < 10 ^ Z.of_nat (count_digits s).
Proof.
  destruct s as [|c s]; [discriminate|]. cbn [int_unsigned count_digits].
  destruct (is_digit c) eqn:Hd; [|discriminate]. intros H.
  apply (int_digits_bound _ _ _ _ 1%nat H).
  change (10 ^ Z.of_nat 1) with 10.
  unfold is_digit in Hd. unfold digit_value. lia.
Qed.

Lemma count_digits_int_lstrip (s : string) :
  (count_digits (int_lstrip s) <= count_digits s)%nat.
Proof.
  induction s as [|c s IH]; [simpl; lia|]. cbn [int_lstrip].
  destruct (is_int_space c); [|lia].
  cbn [count_digits]. destruct (is_digit c); lia.
Qed.

Lemma int_literal_bound (s : string) (n : Z) :
  int_literal s = Some n -> Z.abs n < 10 ^ Z.of_nat (count_digits s).
Proof.
  unfold int_literal. intros H.
  pose proof (count_digits_int_lstrip s) as Hc.
  assert (Hmono : forall t, (count_digits t <= count_digits (int_lstrip s))%nat ->
            10 ^ Z.of_nat (count_digits t) <= 10 ^ Z.of_nat (count_digits s)).
  { intros t Ht. apply Z.pow_le_mono_r; lia. }
  destruct (int_lstrip s) as [|c t] eqn:E; [discriminate H|].
  assert (Hu : forall m, int_unsigned t = Some m ->
                         is_digit c = false ->
                         Z.abs m < 10 ^ Z.of_nat (count_digits s)).
  { intros m Hm Hd. apply int_unsigned_bound in Hm.
    specialize (Hmono t). cbn [count_digits] in Hmono. rewrite Hd in Hmono.
    specialize (Hmono (Nat.le_refl _)). lia. }
  destruct (Ascii.eqb_spec c "+") as [->|Hp].
  { now apply Hu. }
  destruct (Ascii.eqb_spec c "-") as [->|Hm].
  { destruct (int_unsigned t) as [m|] eqn:Ht; [|discriminate H].
    injection H as <-. rewrite Z.abs_opp. now apply Hu. }
  assert (H' : int_unsigned (String c t) = Some n).
  { rewrite <- H.
    destruct c as [[] [] [] [] [] [] [] []]; try reflexivity; congruence. }
  apply int_unsigned_bound in H'.
  specialize (Hmono (String c t) (Nat.le_refl _)). lia.
Qed.

Lemma py_int_bound (s : string) (n : Z) :
  py_int s = Some n -> digits_count n <= int_max_str_digits.
Proof.
  intros H. apply py_int_literal in H as [H Hc].
  apply int_literal_bound in H. unfold digits_count.
  assert (Hk : (String.length (decimal (Z.abs n))
                <= Nat.max 1 (count_digits s))%nat).
  { apply decimal_length; [|lia]. split; [apply Z.abs_nonneg|].
    eapply Z.lt_le_trans; [exact H|]. apply Z.pow_le_mono_r; lia. }
  assert (Hone : 1 <= int_max_str_digits) by (unfold int_max_str_digits; lia).
  lia.
Qed.

(** The value of a run of digits is below the power of ten of its
    length; so a number has more digits than any power of ten it
    reaches. *)
Lemma decimal_value_bound (p : string) :
  forall a j, forall_chars is_digit p = true -> 0 <= a < 10 ^ Z.of_nat j ->
              0 <= decimal_value a p < 10 ^ Z.of_nat (j + String.length p).
Proof.
  induction p as [|c p IH]; intros a j Hp Ha;
    cbn [decimal_value String.length forall_chars] in *.
  - now rewrite Nat.add_0_r.
  - apply andb_true_iff in Hp as [Hc Hp].
    replace (j + S (String.length p))%nat with (S j + String.length p)%nat
      by lia.
    apply IH; [assumption|].
    rewrite Nat2Z.inj_succ, Z.pow_succ_r by lia.
    unfold is_digit in Hc. unfold digit_value. lia.
Qed.

Lemma digits_count_power (n : Z) (k : Z) :
  0 <= k -> 10 ^ k <= n -> k < digits_count n.
Proof.
  intros Hk Hn.
  assert (Hn0 : 0 <= n).
  { pose proof (Z.pow_nonneg 10 k ltac:(lia)). lia. }
  unfold digits_count. rewrite Z.abs_eq by assumption.
  destruct (decimal_spec n Hn0) as (Hall & _ & Hv).
  pose proof (decimal_value_bound (decimal n) 0 0 Hall) as Hb.
  rewrite Hv in Hb. cbn [Nat.add] in Hb.
  specialize (Hb ltac:(cbn; lia)).
  apply (Z.pow_lt_mono_r_iff 10); [lia | lia | lia].
Qed.

Lemma over_limit_power : over_limit (10 ^ int_max_str_digits) = true.
Proof.
  unfold over_limit. apply Z.ltb_lt.
  apply digits_count_power; [unfold int_max_str_digits; lia | lia].
Qed.

(** ** [split] *)

Lemma split_not_nil (sep : ascii) (s : string) : split sep s <> [].
Proof.
  destruct s as [|c r]; simpl; [discriminate|].
  destruct (Ascii.eqb c sep); [discriminate|].
  destruct (split sep r); discriminate.
Qed.

Lemma split_no_sep (sep : ascii) (a : string) :
  forall_chars (not_sep sep) a = true -> split sep a = [a].
Proof.
  induction a as [|c a IH]; simpl; [reflexivity|].
  intros H. apply andb_true_iff in H as [Hc Ha].
  unfold not_sep in Hc. apply negb_true_iff in Hc. rewrite Hc.
  now rewrite (IH Ha).
Qed.

Lemma split_app_sep (sep : ascii) (a r : string) :
  forall_chars (not_sep sep) a = true ->
  split sep (a ++ String sep r) = a :: split sep r.
Proof.
  induction a as [|c a IH]; simpl.
  - intros _. now rewrite Ascii.eqb_refl.
  - intros H. apply andb_true_iff in H as [Hc Ha].
    unfold not_sep in Hc. apply negb_true_iff in Hc. rewrite Hc.
    now rewrite (IH Ha).
Qed.

Lemma digits_no_dot (s : string) :
  forall_chars is_digit s = true -> forall_chars (not_sep ".") s = true.
Proof.
  apply forall_chars_impl. intros c H. unfold not_sep.
  now rewrite (is_digit_not_sep _ H).
Qed.

(** ** Construction *)

Lemma raise_PositiveIntegerValueError_raises {A : Type} field value why :
  exists e, @raise_PositiveIntegerValueError A field value why = Raise e /\
            (e = PositiveIntegerValueError field value why /\
             repr_fails value = false \/
             e = ValueError (Message limit_message) /\
             repr_fails value = true).
Proof.
  unfold raise_PositiveIntegerValueError.
  destruct (repr_fails value); eauto.
Qed.

Lemma raise_str_value {A : Type} field (s : string) why :
  @raise_PositiveIntegerValueError A field (PStr s) why
  = Raise (PositiveIntegerValueError field (PStr s) why).
Proof. reflexivity. Qed.

Lemma verify_number_int (n : Z) (field : string) :
  0 <= n -> _verify_number (PInt n) field = Ok (IInt n).
Proof.
  intros H. unfold _verify_number. simpl.
  destruct (n <? 0) eqn:E; [apply Z.ltb_lt in E; lia | reflexivity].
Qed.

Lemma verify_number_ok (v : pyobj) (field : string) (n : pyint) :
  _verify_number v field = Ok n ->
  0 <= n /\
  ((exists z, v = PInt z /\ n = IInt z) \/
   (exists b, v = PBool b /\ n = IBool b) \/
   (exists s z, v = PStr s /\ py_int s = Some z /\ n = IInt z)).
Proof.
  unfold _verify_number. destruct v as [z|b|s|d]; cbn [bind].
  - destruct (z <? 0) eqn:E.
    + destruct (raise_PositiveIntegerValueError_raises (A := pyint) field
                  (PInt z) (ReasonStr "Negative")) as (e & -> & _).
      discriminate.
    + intros [= <-]. apply Z.ltb_ge in E. cbn. eauto.
  - intros [= <-]. split; [destruct b; cbn; lia | eauto].
  - destruct (py_int s) as [z|] eqn:Hs; cbn [bind]; [|discriminate].
    destruct (z <? 0) eqn:E.
    + destruct (raise_PositiveIntegerValueError_raises (A := pyint) field
                  (PInt z) (ReasonStr "Negative")) as (e & -> & _).
      discriminate.
    + intros [= <-]. apply Z.ltb_ge in E. cbn. eauto 8.
  - discriminate.
Qed.

(** A number that [_verify_number] returns for an argument other than a
    [bool] is an [int] proper. *)
Lemma verify_number_not_bool (v : pyobj) (field : string) (n : pyint) :
  _verify_number v field = Ok n -> not_bool v ->
  exists z, n = IInt z /\ 0 <= z.
Proof.
  intros H Hb. apply verify_number_ok in H
    as (Hn & [(z & -> & ->)|[(b & -> & ->)|(s & z & -> & _ & ->)]]).
  - exists z. auto.
  - destruct Hb.
  - exists z. auto.
Qed.

Lemma version_init_no_segment (major minor patch : pyobj) (v : Version) :
  SemanticVersion.__init__ major minor patch None = Ok v ->
  v = mkVersion (_major v) (_minor v) (_patch v) (mkSegment None None) /\
  _verify_number major "major" = Ok (_major v) /\
  _verify_number minor "minor" = Ok (_minor v) /\
  _verify_number patch "patch" = Ok (_patch v).
Proof.
  unfold SemanticVersion.__init__.
  destruct (_verify_number major "major") as [a|] eqn:Ha; [|discriminate].
  destruct (_verify_number minor "minor") as [b|] eqn:Hb; [|discriminate].
  destruct (_verify_number patch "patch") as [c|] eqn:Hc; [|discriminate].
  simpl. intros [= <-]. simpl. auto.
Qed.

Lemma version_eq_refl_no_segment (a b c : pyint) :
  let v := mkVersion a b c (mkSegment None None) in
  SemanticVersion.op_eq v v = Ok true.
Proof.
  unfold SemanticVersion.op_eq, SemanticVersion.__eq__,
    SemanticVersion.sort_key, tuple_eq. simpl.
  now rewrite !Z.eqb_refl.
Qed.

Lemma from_string_of_three (a b c : Z) :
  plain (IInt a) -> plain (IInt b) -> plain (IInt c) ->
  SemanticVersion.from_string (join "." [decimal a; decimal b; decimal c])
  = Ok (mkVersion (IInt a) (IInt b) (IInt c) (mkSegment None None)).
Proof.
  intros (a' & [= <-] & Ha & La) (b' & [= <-] & Hb & Lb)
    (c' & [= <-] & Hc & Lc).
  destruct (decimal_spec a Ha) as (Da & _ & _).
  destruct (decimal_spec b Hb) as (Db & _ & _).
  destruct (decimal_spec c Hc) as (Dc & _ & _).
  unfold SemanticVersion.from_string. cbn [join append].
  rewrite split_app_sep by now apply digits_no_dot.
  rewrite split_app_sep by now apply digits_no_dot.
  rewrite split_no_sep by now apply digits_no_dot.
  cbn [List.length Z.of_nat Z.ltb Z.compare Pos.compare Pos.compare_cont
       Pos.of_succ_nat Pos.succ Nat.sub repeat app removelast last mapM].
  unfold SemanticVersion._to_int.
  rewrite !py_int_decimal by assumption. cbn [bind].
  cbn [strip lstrip rstrip is_empty].
  unfold SemanticVersion.__init__.
  rewrite !verify_number_int by lia. reflexivity.
Qed.

(** [str] of a version without segment whose numbers are ints proper
    within the limit. *)
Lemma str_of_three (a b c : Z) :
  plain (IInt a) -> plain (IInt b) -> plain (IInt c) ->
  SemanticVersion.__str__
    (mkVersion (IInt a) (IInt b) (IInt c) (mkSegment None None))
  = Ok (join "." [decimal a; decimal b; decimal c]).
Proof.
  intros (a' & [= <-] & Ha & La) (b' & [= <-] & Hb & Lb)
    (c' & [= <-] & Hc & Lc).
  unfold SemanticVersion.__str__.
  cbn [SemanticVersion.segment SemanticVersion.major SemanticVersion.minor
       SemanticVersion.patch _segment _major _minor _patch _Segment.isnone
       _Segment.kind _Segment.number _kind _number is_None Bool.eqb negb bind
       mapM SemanticVersion.str_elt str_pyint].
  now rewrite !str_int_nonneg by assumption.
Qed.

(** A version whose major has one digit more than the limit is
    constructed, and [str] raises on it. *)
Lemma init_over_limit :
  SemanticVersion.__init__ (PInt (10 ^ int_max_str_digits)) (PInt 0) (PInt 0)
    None
  = Ok (mkVersion (IInt (10 ^ int_max_str_digits)) (IInt 0) (IInt 0)
          (mkSegment None None)).
Proof.
  unfold SemanticVersion.__init__.
  rewrite verify_number_int by (apply Z.pow_nonneg; lia).
  reflexivity.
Qed.

Lemma str_over_limit :
  SemanticVersion.__str__
    (mkVersion (IInt (10 ^ int_max_str_digits)) (IInt 0) (IInt 0)
       (mkSegment None None))
  = Raise (ValueError (Message limit_message)).
Proof.
  unfold SemanticVersion.__str__.
  cbn [SemanticVersion.segment SemanticVersion.major SemanticVersion.minor
       SemanticVersion.patch _segment _major _minor _patch
       _Segment.isnone _Segment.kind _Segment.number _kind _number
       is_None Bool.eqb negb bind mapM SemanticVersion.str_elt str_pyint].
  unfold str_int at 1. rewrite over_limit_power. reflexivity.
Qed.

(** C3, as stated, fails: [True] is accepted as major and printed as
    "True", which [from_string] refuses with the error of [int()]; and
    [10 ^ 4300], an integer of 4301 digits, is accepted as major, and
    [str] of the version raises the builtin [ValueError] of the limit on
    integer string conversion. In both cases the round trip raises. *)
Lemma roundtrip_fails_for_bool_and_long_int :
  (v <- SemanticVersion.__init__ (PBool true) (PInt 0) (PInt 0) None ;;
   SemanticVersion.__str__ v) = Ok "True.0.0" /\
  SemanticVersion.from_string "True.0.0"
  = Raise (ValueError (InvalidLiteral "True")) /\
  (v <- SemanticVersion.__init__ (PBool true) (PInt 0) (PInt 0) None ;;
   s <- SemanticVersion.__str__ v ;;
   w <- SemanticVersion.from_string s ;;
   SemanticVersion.op_eq w v) = Raise (ValueError (InvalidLiteral "True")) /\
  (exists v,
      SemanticVersion.__init__ (PInt (10 ^ int_max_str_digits)) (PInt 0)
        (PInt 0) None = Ok v /\
      SemanticVersion.__str__ v = Raise (ValueError (Message limit_message)))
  /\
  (v <- SemanticVersion.__init__ (PInt (10 ^ int_max_str_digits)) (PInt 0)
          (PInt 0) None ;;
   s <- SemanticVersion.__str__ v ;;
   w <- SemanticVersion.from_string s ;;
   SemanticVersion.op_eq w v) = Raise (ValueError (Message limit_message)).
Proof.
  split; [reflexivity|]. split; [reflexivity|]. split; [reflexivity|].
  split.
  - eexists. split; [exact init_over_limit | exact str_over_limit].
  - rewrite init_over_limit. cbn [bind]. now rewrite str_over_limit.
Qed.

(** C3, amended. Round trip: a version built without segment from
    arguments that are not [bool], and whose three numbers have at most
    4300 digits, is printed by [str] as a string that [from_string] parses
    back to a version equal ([==]) to it; in fact to the same field
    values. *)
Theorem roundtrip_without_segment (major minor patch : pyobj) (v : Version)
  (H : SemanticVersion.__init__ major minor patch None = Ok v)
  (Hb : not_bool major /\ not_bool minor /\ not_bool patch)
  (Hl : within_limit v) :
  exists s,
    SemanticVersion.__str__ v = Ok s /\
    SemanticVersion.from_string s = Ok v /\
    (w <- SemanticVersion.from_string s ;; SemanticVersion.op_eq w v) = Ok true.
Proof.
  apply version_init_no_segment in H as (Hv & Ha & Hm & Hp).
  destruct Hb as (Ba & Bm & Bp). destruct Hl as (La & Lm & Lp).
  destruct (verify_number_not_bool _ _ _ Ha Ba) as (a & Ea & Pa).
  destruct (verify_number_not_bool _ _ _ Hm Bm) as (b & Eb & Pb).
  destruct (verify_number_not_bool _ _ _ Hp Bp) as (c & Ec & Pc).
  rewrite Ea in La. rewrite Eb in Lm. rewrite Ec in Lp.
  cbn [int_value] in La, Lm, Lp.
  rewrite Hv, Ea, Eb, Ec.
  exists (join "." [decimal a; decimal b; decimal c]).
  rewrite str_of_three, from_string_of_three by (eexists; eauto).
  split; [reflexivity|]. split; [reflexivity|].
  cbn [bind]. apply version_eq_refl_no_segment.
Qed.

Lemma roundtrip_without_segment_witness :
  exists s,
    SemanticVersion.__str__
      (mkVersion (IInt 1) (IInt 20) (IInt 3) (mkSegment None None)) = Ok s /\
    SemanticVersion.from_string s
      = Ok (mkVersion (IInt 1) (IInt 20) (IInt 3) (mkSegment None None)) /\
    (w <- SemanticVersion.from_string s ;;
     SemanticVersion.op_eq w
       (mkVersion (IInt 1) (IInt 20) (IInt 3) (mkSegment None None)))
    = Ok true.
Proof.
  apply (roundtrip_without_segment (PInt 1) (PStr " 2_0") (PInt 3)).
  - reflexivity.
  - repeat split.
  - repeat split; apply Z.leb_le; reflexivity.
Defined.

(** ** Segments *)

Lemma verify_kind_ok (g k : string) :
  _Segment._verify_kind g = Ok k ->
  k = g /\ (g = "dev" \/ g = "alpha" \/ g = "beta" \/ g = "rc" \/ g = "post").
Proof.
  unfold _Segment._verify_kind.
  destruct (String.eqb_spec g "dev") as [->|?]; [intros [= <-]; auto|].
  destruct (String.eqb_spec g "alpha") as [->|?]; [intros [= <-]; auto|].
  destruct (String.eqb_spec g "beta") as [->|?]; [intros [= <-]; auto 6|].
  destruct (String.eqb_spec g "rc") as [->|?]; [intros [= <-]; auto 6|].
  destruct (String.eqb_spec g "post") as [->|?]; [intros [= <-]; auto 6|].
  cbn [orb].
  repeat match goal with
         | |- context [if ?b then _ else _] => destruct b
         end; discriminate.
Qed.

Lemma segment_init_ok (value : option string) (s : Segment) :
  _Segment.__init__ value = Ok s ->
  (value = None /\ s = mkSegment None None) \/
  (exists v g0 g1 n,
      value = Some v /\ _SEGMENT_SPLIT_RE_match v = Some (g0, g1) /\
      (g0 = "dev" \/ g0 = "alpha" \/ g0 = "beta" \/ g0 = "rc" \/ g0 = "post") /\
      py_int g1 = Some n /\ 0 <= n /\
      s = mkSegment (Some g0) (Some n)).
Proof.
  unfold _Segment.__init__. destruct value as [v|]; [|intros [= <-]; auto].
  destruct (_SEGMENT_SPLIT_RE_match v) as [[g0 g1]|] eqn:Hm; [|discriminate].
  destruct (_Segment._verify_kind g0) as [k|] eqn:Hk; [|discriminate].
  destruct (_verify_number (PStr g1) "segment.number") as [n|] eqn:Hn;
    [|discriminate].
  cbn [bind]. intros [= <-]. right.
  apply verify_kind_ok in Hk as [-> Hk].
  apply verify_number_ok in Hn
      as (Hn0 & [(z & [=] & _)|[(b & [=] & _)|(s' & z & [= <-] & Hz & ->)]]).
  cbn [int_value] in *. exists v, g0, g1, z. auto 10.
Qed.

(** The sort key of a constructed segment: its rank, and its number. *)
Lemma constructed_key (s : Segment) :
  constructed s ->
  exists r,
    _Segment.sort_key s = Ok (VTuple [VInt r; val_of_number (_number s)]) /\
    kind_rank (_kind s) r /\
    (r = 4 <-> _number s = None) /\
    (forall n, _number s = Some n -> 0 <= n).
Proof.
  intros [value H]. apply segment_init_ok in H as [[_ ->]|H].
  - exists 4. repeat split; try constructor; try discriminate.
  - destruct H as (v & g0 & g1 & n & _ & _ & Hk & _ & Hn & ->).
    destruct Hk as [-> | [-> | [-> | [-> | ->]]]];
      [exists 0 | exists 1 | exists 2 | exists 3 | exists 5];
      (split; [reflexivity|]); (split; [constructor|]);
      (split; [split; discriminate|]);
      cbn; intros ? [= <-]; assumption.
Qed.

Lemma py_lt_key (ra rb : Z) (na nb : option Z) :
  (ra = 4 <-> na = None) -> (rb = 4 <-> nb = None) ->
  exists x,
    py_lt (VTuple [VInt ra; val_of_number na])
          (VTuple [VInt rb; val_of_number nb]) = Some x /\
    (x = true <-> ra < rb \/ (ra = rb /\ number_lt na nb)).
Proof.
  intros Ha Hb. cbn [py_lt py_eq].
  destruct (Z.eqb_spec ra rb) as [->|Hne].
  - destruct na as [n|], nb as [m|]; cbn [val_of_number py_eq py_lt number_lt];
      try (exfalso; intuition congruence).
    + destruct (Z.eqb_spec n m) as [->|Hnm].
      * exists false. split; [reflexivity|]. split; [discriminate | lia].
      * exists (n <? m). split; [reflexivity|].
        rewrite Z.ltb_lt. split; [auto | lia].
    + exists false. split; [reflexivity|].
      split; [discriminate | intros [?|[_ []]]; lia].
  - exists (ra <? rb). split; [reflexivity|].
    rewrite Z.ltb_lt. split; [auto | lia].
Qed.

Lemma py_eq_key (ra rb : Z) (na nb : option Z) :
  py_eq (VTuple [VInt ra; val_of_number na])
        (VTuple [VInt rb; val_of_number nb]) = true
  <-> ra = rb /\ na = nb.
Proof.
  cbn [py_eq]. rewrite !andb_true_iff, Z.eqb_eq.
  destruct na as [n|], nb as [m|]; cbn [val_of_number py_eq];
    rewrite ?Z.eqb_eq; intuition congruence.
Qed.

Lemma kind_rank_inj (k : option string) (r r' : Z) :
  kind_rank k r -> kind_rank k r' -> r = r'.
Proof.
  intros H H'. destruct H; inversion H'; reflexivity.
Qed.

Lemma kind_rank_kind (k k' : option string) (r : Z) :
  kind_rank k r -> kind_rank k' r -> k = k'.
Proof.
  intros H H'. destruct H; inversion H'; reflexivity.
Qed.

(** Comparison of two constructed segments, through their keys. *)
Lemma segment_compare (a b : Segment) :
  constructed a -> constructed b ->
  exists ra rb,
    kind_rank (_kind a) ra /\ kind_rank (_kind b) rb /\
    _Segment.sort_key a = Ok (VTuple [VInt ra; val_of_number (_number a)]) /\
    _Segment.sort_key b = Ok (VTuple [VInt rb; val_of_number (_number b)]) /\
    (exists x, _Segment.__lt__ a (OSegment b) = Ok (PyBool x)) /\
    (exists y, _Segment.__eq__ a (OSegment b) = Ok (PyBool y)) /\
    (seg_lt a b <-> ra < rb \/ (ra = rb /\ number_lt (_number a) (_number b))) /\
    (seg_eq a b <-> ra = rb /\ _number a = _number b).
Proof.
  intros Ha Hb.
  destruct (constructed_key a Ha) as (ra & Ka & Ra & Na & _).
  destruct (constructed_key b Hb) as (rb & Kb & Rb & Nb & _).
  exists ra, rb. do 4 (split; [assumption|]).
  destruct (py_lt_key ra rb _ _ Na Nb) as (x & Hx & Hxs).
  unfold seg_lt, seg_eq, _Segment.__lt__, _Segment.__eq__, tuple_lt, tuple_eq.
  rewrite Ka, Kb. cbn [bind]. rewrite Hx.
  split; [eauto|]. split; [eauto|]. split.
  - rewrite <- Hxs. split; [intros [= ->]; reflexivity | intros ->; reflexivity].
  - split; intros H.
    + injection H as H. now apply py_eq_key.
    + apply py_eq_key in H. now rewrite H.
Qed.

(** C2. On constructed segments [<] and [==] always answer with a
    boolean; the key is (rank, number) with rank dev=0, alpha=1, beta=2,
    rc=3, absent=4, post=5; [<] is the lexicographic order of the keys
    (so, within a kind, the order of the numbers), [==] is equality of the
    keys; [<] is irreflexive and transitive and exactly one of [a < b],
    [a == b], [b < a] holds; two absent segments are equal. *)
Theorem segment_order_is_strict_total (a b c : Segment)
  (Ha : constructed a) (Hb : constructed b) (Hc : constructed c) :
  (exists ra rb,
      kind_rank (_kind a) ra /\ kind_rank (_kind b) rb /\
      _Segment.sort_key a = Ok (VTuple [VInt ra; val_of_number (_number a)]) /\
      _Segment.sort_key b = Ok (VTuple [VInt rb; val_of_number (_number b)]) /\
      (exists x, _Segment.__lt__ a (OSegment b) = Ok (PyBool x)) /\
      (exists y, _Segment.__eq__ a (OSegment b) = Ok (PyBool y)) /\
      (seg_lt a b <->
       ra < rb \/ (ra = rb /\ number_lt (_number a) (_number b))) /\
      (seg_eq a b <-> ra = rb /\ _number a = _number b)) /\
  (_kind a = _kind b -> (seg_lt a b <-> number_lt (_number a) (_number b))) /\
  ~ seg_lt a a /\
  (seg_lt a b -> seg_lt b c -> seg_lt a c) /\
  (seg_lt a b \/ seg_eq a b \/ seg_lt b a) /\
  ~ (seg_lt a b /\ seg_eq a b) /\
  ~ (seg_lt a b /\ seg_lt b a) /\
  ~ (seg_eq a b /\ seg_lt b a) /\
  (x <- _Segment.__init__ None ;; y <- _Segment.__init__ None ;;
   _Segment.__eq__ x (OSegment y)) = Ok (PyBool true).
Proof.
  pose proof (segment_compare a b Ha Hb) as Hab.
  split; [exact Hab|].
  destruct Hab as (ra & rb & Ra & Rb & _ & _ & _ & _ & Lab & Eab).
  destruct (segment_compare b c Hb Hc)
    as (rb' & rc & Rb' & Rc & _ & _ & _ & _ & Lbc & _).
  destruct (segment_compare a c Ha Hc)
    as (ra' & rc' & Ra' & Rc' & _ & _ & _ & _ & Lac & _).
  destruct (segment_compare a a Ha Ha)
    as (r1 & r2 & R1 & R2 & _ & _ & _ & _ & Laa & _).
  destruct (segment_compare b a Hb Ha)
    as (rb2 & ra2 & Rb2 & Ra2 & _ & _ & _ & _ & Lba & _).
  rewrite (kind_rank_inj _ _ _ Rb' Rb) in *.
  rewrite (kind_rank_inj _ _ _ Ra' Ra) in *.
  rewrite (kind_rank_inj _ _ _ Rc' Rc) in *.
  rewrite (kind_rank_inj _ _ _ R1 Ra), (kind_rank_inj _ _ _ R2 Ra) in *.
  rewrite (kind_rank_inj _ _ _ Rb2 Rb), (kind_rank_inj _ _ _ Ra2 Ra) in *.
  destruct (constructed_key a Ha) as (ra3 & _ & Ra3 & Na & _).
  destruct (constructed_key b Hb) as (rb3 & _ & Rb3 & Nb & _).
  rewrite (kind_rank_inj _ _ _ Ra3 Ra) in *.
  rewrite (kind_rank_inj _ _ _ Rb3 Rb) in *.
  rewrite Lab, Lbc, Lac, Laa, Lba, Eab.
  clear Lab Lbc Lac Laa Lba Eab Ra' Rb' Rc' R1 R2 Rb2 Ra2 Ra3 Rb3.
  assert (Hss : forall x y : Z, Some x = Some y <-> x = y)
    by (split; congruence).
  assert (Hsn : forall x : Z, Some x = None <-> False)
    by (split; [discriminate | tauto]).
  assert (Hnn : @None Z = None <-> True) by tauto.
  split.
  { intros Hk. rewrite Hk in Ra. rewrite (kind_rank_inj _ _ _ Ra Rb).
    destruct (_number a), (_number b); cbn [number_lt]; lia. }
  destruct (_number a) as [na|], (_number b) as [nb|], (_number c) as [nc|];
    cbn [number_lt]; rewrite ?Hss, ?Hsn, ?Hnn in *;
    repeat split; lia.
Qed.

Lemma segment_order_is_strict_total_witness :
  seg_lt (mkSegment (Some "dev") (Some 1)) (mkSegment (Some "dev") (Some 2)) /\
  seg_lt (mkSegment (Some "dev") (Some 1)) (mkSegment None None).
Proof.
  assert (H1 : constructed (mkSegment (Some "dev") (Some 1)))
    by (exists (Some "dev1"); reflexivity).
  assert (H2 : constructed (mkSegment (Some "dev") (Some 2)))
    by (exists (Some "dev2"); reflexivity).
  assert (H3 : constructed (mkSegment None None))
    by (exists None; reflexivity).
  pose proof (segment_order_is_strict_total _ _ _ H1 H2 H3)
    as (_ & Hk & _ & Ht & _).
  split.
  - apply Hk; [reflexivity | simpl; lia].
  - apply Ht; [apply Hk; [reflexivity | simpl; lia] | reflexivity].
Defined.

(** ** Versions *)

Lemma version_init_ok (major minor patch : pyobj) (segment : option string)
  (v : Version) :
  SemanticVersion.__init__ major minor patch segment = Ok v ->
  _verify_number major "major" = Ok (_major v) /\
  _verify_number minor "minor" = Ok (_minor v) /\
  _verify_number patch "patch" = Ok (_patch v) /\
  _Segment.__init__ segment = Ok (_segment v).
Proof.
  unfold SemanticVersion.__init__.
  destruct (_verify_number major "major") as [a|]; [|discriminate].
  destruct (_verify_number minor "minor") as [b|]; [|discriminate].
  destruct (_verify_number patch "patch") as [c|]; [|discriminate].
  destruct (_Segment.__init__ segment) as [s|]; [|discriminate].
  cbn [bind]. intros [= <-]. auto.
Qed.

Lemma constructed_version_segment (v : Version) :
  constructed_version v -> constructed (_segment v).
Proof.
  intros (major & minor & patch & segment & H).
  apply version_init_ok in H as (_ & _ & _ & H). now exists segment.
Qed.

Lemma version_init_ints (M m p : Z) (segment : option string) (s : Segment) :
  0 <= M -> 0 <= m -> 0 <= p -> _Segment.__init__ segment = Ok s ->
  SemanticVersion.__init__ (PInt M) (PInt m) (PInt p) segment
  = Ok (mkVersion (IInt M) (IInt m) (IInt p) s).
Proof.
  intros HM Hm Hp Hs. unfold SemanticVersion.__init__.
  rewrite !verify_number_int by assumption. cbn [bind]. now rewrite Hs.
Qed.

(** [__lt__] between two constructed versions, through their keys. *)
Lemma version_compare (a b : Version) :
  constructed_version a -> constructed_version b ->
  exists ka kb,
    _Segment.sort_key (_segment a) = Ok ka /\
    _Segment.sort_key (_segment b) = Ok kb /\
    SemanticVersion.sort_key a
    = Ok (VTuple [VInt (_major a); VInt (_minor a); VInt (_patch a); ka]) /\
    SemanticVersion.sort_key b
    = Ok (VTuple [VInt (_major b); VInt (_minor b); VInt (_patch b); kb]) /\
    (exists x, SemanticVersion.__lt__ a (OVersion b) = Ok (PyBool x)) /\
    (SemanticVersion.__lt__ a (OVersion b) = Ok (PyBool true) <->
     _major a < _major b \/
     ((_major a : Z) = _major b /\
      (_minor a < _minor b \/
       ((_minor a : Z) = _minor b /\
        (_patch a < _patch b \/
         ((_patch a : Z) = _patch b /\ seg_lt (_segment a) (_segment b))))))).
Proof.
  intros Ha Hb.
  apply constructed_version_segment in Ha, Hb.
  destruct (segment_compare _ _ Ha Hb)
    as (ra & rb & Ra & Rb & Ka & Kb & _ & _ & Lab & Eab).
  destruct (constructed_key _ Ha) as (ra' & _ & Ra' & Na & _).
  destruct (constructed_key _ Hb) as (rb' & _ & Rb' & Nb & _).
  rewrite (kind_rank_inj _ _ _ Ra' Ra) in Na.
  rewrite (kind_rank_inj _ _ _ Rb' Rb) in Nb.
  destruct (py_lt_key ra rb _ _ Na Nb) as (x & Hx & Hxs).
  pose proof (py_eq_key ra rb (_number (_segment a)) (_number (_segment b)))
    as Heq.
  eexists _, _. split; [exact Ka|]. split; [exact Kb|].
  unfold SemanticVersion.sort_key, SemanticVersion.segment,
    SemanticVersion.major, SemanticVersion.minor, SemanticVersion.patch.
  rewrite Ka, Kb. cbn [bind]. split; [reflexivity|]. split; [reflexivity|].
  rewrite Lab, <- Hxs.
  unfold SemanticVersion.__lt__, SemanticVersion.sort_key,
    SemanticVersion.segment, SemanticVersion.major, SemanticVersion.minor,
    SemanticVersion.patch, tuple_lt.
  rewrite Ka, Kb. cbn [bind].
  set (ka := VTuple [VInt ra; val_of_number (_number (_segment a))]) in *.
  set (kb := VTuple [VInt rb; val_of_number (_number (_segment b))]) in *.
  cbn [py_lt py_eq].
  destruct (Z.eqb_spec (_major a) (_major b)) as [EM|NM];
    [|split; [eauto|];
      split; [intros [= H]; apply Z.ltb_lt in H; auto
             |intros H; assert (Hlt : _major a < _major b) by lia;
              apply Z.ltb_lt in Hlt; now rewrite Hlt]].
  destruct (Z.eqb_spec (_minor a) (_minor b)) as [Em|Nm];
    [|split; [eauto|];
      split; [intros [= H]; apply Z.ltb_lt in H; auto
             |intros H; assert (Hlt : _minor a < _minor b) by lia;
              apply Z.ltb_lt in Hlt; now rewrite Hlt]].
  destruct (Z.eqb_spec (_patch a) (_patch b)) as [Ep|Np];
    [|split; [eauto|];
      split; [intros [= H]; apply Z.ltb_lt in H; auto 7
             |intros H; assert (Hlt : _patch a < _patch b) by lia;
              apply Z.ltb_lt in Hlt; now rewrite Hlt]].
  destruct (py_eq ka kb) eqn:E.
  - split; [eauto|]. destruct Heq as [Heq _]. specialize (Heq eq_refl).
    assert (x = false) as ->.
    { destruct x; [|reflexivity]. exfalso.
      destruct Hxs as [Hxs _]. specialize (Hxs eq_refl).
      destruct Heq as [-> Hn]. rewrite Hn in Hxs.
      destruct (_number (_segment b)); cbn [number_lt] in Hxs; lia. }
    split; [discriminate|]. intros H.
    repeat match goal with
           | H : _ \/ _ |- _ => destruct H as [H|H]; [lia|]
           | H : _ /\ _ |- _ => destruct H as [_ H]
           end.
    discriminate.
  - rewrite Hx. split; [eauto|]. split.
    + intros [= ->]. auto 8.
    + intros H.
      repeat match goal with
             | H : _ \/ _ |- _ => destruct H as [H|H]; [lia|]
             | H : _ /\ _ |- _ => destruct H as [_ H]
             end.
      now rewrite H.
Qed.

Lemma constructed_version_nonneg (v : Version) :
  constructed_version v -> 0 <= _major v /\ 0 <= _minor v /\ 0 <= _patch v.
Proof.
  intros (major & minor & patch & segment & H).
  apply version_init_ok in H as (Ha & Hb & Hc & _).
  apply verify_number_ok in Ha, Hb, Hc. tauto.
Qed.

Lemma lt_same_numbers (M m p : pyint) (s t : Segment) :
  _Segment.__lt__ s (OSegment t) = Ok (PyBool true) ->
  _Segment.__eq__ s (OSegment t) = Ok (PyBool false) ->
  SemanticVersion.op_lt (mkVersion M m p s) (mkVersion M m p t) = Ok true.
Proof.
  unfold _Segment.__lt__, _Segment.__eq__, SemanticVersion.op_lt,
    SemanticVersion.__lt__, SemanticVersion.sort_key, tuple_lt, tuple_eq.
  cbn [SemanticVersion.segment SemanticVersion.major SemanticVersion.minor
       SemanticVersion.patch _segment _major _minor _patch].
  destruct (_Segment.sort_key s) as [ks|]; [|discriminate].
  destruct (_Segment.sort_key t) as [kt|]; [|discriminate].
  cbn [bind py_lt py_eq]. rewrite !Z.eqb_refl.
  destruct (py_lt ks kt) as [x|]; [|discriminate].
  intros [= ->] [= ->]. reflexivity.
Qed.

Lemma lt_next_patch (M m : pyint) (p : Z) (s t : Segment) (ks kt : pyval) :
  _Segment.sort_key s = Ok ks -> _Segment.sort_key t = Ok kt ->
  SemanticVersion.op_lt (mkVersion M m (IInt p) s)
    (mkVersion M m (IInt (p + 1)) t) = Ok true.
Proof.
  intros Hs Ht.
  unfold SemanticVersion.op_lt, SemanticVersion.__lt__,
    SemanticVersion.sort_key, tuple_lt.
  cbn [SemanticVersion.segment SemanticVersion.major SemanticVersion.minor
       SemanticVersion.patch _segment _major _minor _patch].
  rewrite Hs, Ht. cbn [bind py_lt py_eq int_value]. rewrite !Z.eqb_refl.
  assert (E : (p =? p + 1) = false) by (apply Z.eqb_neq; lia).
  assert (L : (p <? p + 1) = true) by (apply Z.ltb_lt; lia).
  rewrite E, L. reflexivity.
Qed.

(** C1. Between constructed versions [<] answers with a boolean and is the
    lexicographic order of the keys (major, minor, patch, segment key),
    the segments being compared as segments are. Hence, for the numbers of
    any version, N.dev1 < N.alpha1 < N.beta1 < N.rc1 < N < N.post1 < the
    next patch; in particular for 1.0.0, parsed from text; and
    10.0.0 > 9.0.0. *)
Theorem version_order_is_lexicographic (a b : Version)
  (Ha : constructed_version a) (Hb : constructed_version b) :
  (exists ka kb,
      _Segment.sort_key (_segment a) = Ok ka /\
      _Segment.sort_key (_segment b) = Ok kb /\
      SemanticVersion.sort_key a
      = Ok (VTuple [VInt (_major a); VInt (_minor a); VInt (_patch a); ka]) /\
      SemanticVersion.sort_key b
      = Ok (VTuple [VInt (_major b); VInt (_minor b); VInt (_patch b); kb])) /\
  (exists x, SemanticVersion.op_lt a b = Ok x) /\
  (ver_lt a b <->
   _major a < _major b \/
   ((_major a : Z) = _major b /\
    (_minor a < _minor b \/
     ((_minor a : Z) = _minor b /\
      (_patch a < _patch b \/
       ((_patch a : Z) = _patch b /\ seg_lt (_segment a) (_segment b))))))) /\
  (let mk := SemanticVersion.__init__
               (PInt (_major a)) (PInt (_minor a)) (PInt (_patch a)) in
   lt_of (mk (Some "dev1")) (mk (Some "alpha1")) = Ok true /\
   lt_of (mk (Some "alpha1")) (mk (Some "beta1")) = Ok true /\
   lt_of (mk (Some "beta1")) (mk (Some "rc1")) = Ok true /\
   lt_of (mk (Some "rc1")) (mk None) = Ok true /\
   lt_of (mk None) (mk (Some "post1")) = Ok true /\
   lt_of (mk (Some "post1"))
     (SemanticVersion.__init__
        (PInt (_major a)) (PInt (_minor a)) (PInt (_patch a + 1)) None)
   = Ok true) /\
  (let parse := SemanticVersion.from_string in
   lt_of (parse "1.0.0.dev1") (parse "1.0.0.alpha1") = Ok true /\
   lt_of (parse "1.0.0.alpha1") (parse "1.0.0.beta1") = Ok true /\
   lt_of (parse "1.0.0.beta1") (parse "1.0.0.rc1") = Ok true /\
   lt_of (parse "1.0.0.rc1") (parse "1.0.0") = Ok true /\
   lt_of (parse "1.0.0") (parse "1.0.0.post1") = Ok true /\
   lt_of (parse "1.0.0.post1") (parse "1.0.1") = Ok true /\
   gt_of (parse "10.0.0") (parse "9.0.0") = Ok true).
Proof.
  destruct (version_compare a b Ha Hb)
    as (ka & kb & Ka & Kb & Sa & Sb & (x & Hx) & Hlt).
  destruct (constructed_version_nonneg a Ha) as (HM & Hm & Hp).
  split; [exists ka, kb; auto|].
  assert (Hop : SemanticVersion.op_lt a b = Ok x)
    by (unfold SemanticVersion.op_lt; now rewrite Hx).
  split; [eauto|]. split.
  - rewrite <- Hlt. unfold ver_lt. rewrite Hop, Hx.
    split; intros [= ->]; reflexivity.
  - split; [|vm_compute; repeat split; reflexivity].
    cbv zeta. unfold lt_of.
    rewrite (version_init_ints _ _ _ (Some "dev1")
               (mkSegment (Some "dev") (Some 1))) by (assumption || reflexivity).
    rewrite (version_init_ints _ _ _ (Some "alpha1")
               (mkSegment (Some "alpha") (Some 1)))
      by (assumption || reflexivity).
    rewrite (version_init_ints _ _ _ (Some "beta1")
               (mkSegment (Some "beta") (Some 1)))
      by (assumption || reflexivity).
    rewrite (version_init_ints _ _ _ (Some "rc1")
               (mkSegment (Some "rc") (Some 1))) by (assumption || reflexivity).
    rewrite (version_init_ints _ _ _ (Some "post1")
               (mkSegment (Some "post") (Some 1)))
      by (assumption || reflexivity).
    rewrite (version_init_ints (_major a) (_minor a) (_patch a) None
               (mkSegment None None)) by (assumption || reflexivity).
    rewrite (version_init_ints (_major a) (_minor a) (_patch a + 1) None
               (mkSegment None None)) by (assumption || reflexivity || lia).
    cbn [bind].
    repeat split; try (apply lt_same_numbers; reflexivity).
    eapply lt_next_patch; reflexivity.
Qed.

Lemma version_order_is_lexicographic_witness :
  ver_lt (mkVersion (IInt 9) (IInt 0) (IInt 0) (mkSegment None None))
         (mkVersion (IInt 10) (IInt 0) (IInt 0)
            (mkSegment (Some "dev") (Some 1))).
Proof.
  assert (Ha : constructed_version
                 (mkVersion (IInt 9) (IInt 0) (IInt 0) (mkSegment None None)))
    by (exists (PInt 9), (PInt 0), (PInt 0), None; reflexivity).
  assert (Hb : constructed_version
                 (mkVersion (IInt 10) (IInt 0) (IInt 0)
                    (mkSegment (Some "dev") (Some 1))))
    by (exists (PInt 10), (PInt 0), (PInt 0), (Some "dev1"); reflexivity).
  pose proof (version_order_is_lexicographic _ _ Ha Hb) as (_ & _ & Hlt & _).
  apply Hlt. left. simpl. lia.
Defined.

(** ** Parsing *)

Lemma to_int_empty :
  SemanticVersion._to_int "" = Raise (ValueError (InvalidLiteral "")).
Proof. reflexivity. Qed.

(** C4. [from_string] raises the builtin [ValueError] "too much elements"
    on an input of more than four dot-separated parts; on an input of
    fewer than three parts it raises the builtin [ValueError] of [int()]
    for a slot that [int()] rejects (at the latest the empty patch slot
    left by the padding), never one of the module's own exceptions; more
    generally, whenever one of the three numeric slots is rejected by
    [int()], the error is that of [int()] on such a slot; so for "1.2". *)
Theorem from_string_wrong_arity (s : string) :
  ((4 < List.length (split "." s))%nat ->
   SemanticVersion.from_string s
   = Raise (ValueError (Message ("Cannot parse " ++ s ++ ": too much elements"))))
  /\
  ((List.length (split "." s) < 3)%nat ->
   exists x,
     SemanticVersion.from_string s = Raise (ValueError (InvalidLiteral x)) /\
     py_int x = None /\
     is_custom (ValueError (InvalidLiteral x)) = false)
  /\
  (forall a b c d,
      (split "." s ++ repeat "" (4 - List.length (split "." s)))%list
      = [a; b; c; d] ->
      py_int a = None \/ py_int b = None \/ py_int c = None ->
      exists x,
        In x [a; b; c] /\ py_int x = None /\
        SemanticVersion.from_string s = Raise (ValueError (InvalidLiteral x)))
  /\
  SemanticVersion.from_string "1.2" = Raise (ValueError (InvalidLiteral "")).
Proof.
  split; [|split; [|split; [|reflexivity]]]; cycle 2.
  { intros a b c d Hpad Hbad. unfold SemanticVersion.from_string.
    assert (E : (4 <? Z.of_nat (List.length (split "." s))) = false).
    { apply Z.ltb_ge. apply (f_equal (@List.length _)) in Hpad.
      rewrite length_app, repeat_length in Hpad. simpl in Hpad. lia. }
    rewrite E, Hpad. cbn [removelast mapM]. unfold SemanticVersion._to_int.
    destruct (py_int a) as [x|] eqn:Ea; cbn [bind];
      [|exists a; simpl; auto].
    destruct (py_int b) as [y|] eqn:Eb; cbn [bind];
      [|exists b; simpl; auto].
    destruct (py_int c) as [z|] eqn:Ec; cbn [bind];
      [|exists c; simpl; auto].
    exfalso. destruct Hbad as [H|[H|H]]; discriminate H. }
  - intros H. unfold SemanticVersion.from_string.
    assert (E : (4 <? Z.of_nat (List.length (split "." s))) = true)
      by (apply Z.ltb_lt; lia).
    now rewrite E.
  - intros H. unfold SemanticVersion.from_string.
    assert (E : (4 <? Z.of_nat (List.length (split "." s))) = false)
      by (apply Z.ltb_ge; lia).
    rewrite E. clear E.
    pose proof (split_not_nil "." s) as Hne.
    destruct (split "." s) as [|a [|b [|c l]]];
      [congruence | | | simpl in H; lia];
      cbn [List.length Nat.sub repeat app removelast mapM];
      unfold SemanticVersion._to_int.
    + destruct (py_int a) as [n|] eqn:Ea; cbn [bind].
      * exists "". auto.
      * exists a. auto.
    + destruct (py_int a) as [n|] eqn:Ea; cbn [bind];
        [|exists a; auto].
      destruct (py_int b) as [m|] eqn:Eb; cbn [bind];
        [exists ""; auto | exists b; auto].
Qed.

Lemma from_string_wrong_arity_witness :
  SemanticVersion.from_string "1.2.3.4.5"
  = Raise (ValueError (Message "Cannot parse 1.2.3.4.5: too much elements"))
  /\ exists x,
      SemanticVersion.from_string "7" = Raise (ValueError (InvalidLiteral x)) /\
      py_int x = None /\
      is_custom (ValueError (InvalidLiteral x)) = false.
Proof.
  split.
  - apply (from_string_wrong_arity "1.2.3.4.5"). simpl. lia.
  - apply (from_string_wrong_arity "7"). simpl. lia.
Defined.

(** ** Display *)

Lemma str_pyint_within (n : pyint) :
  digits_count n <= int_max_str_digits -> str_pyint n = Ok (pyint_text n).
Proof.
  intros H. destruct n as [z|b]; [|reflexivity].
  cbn [str_pyint pyint_text int_value] in *. unfold str_int.
  now rewrite over_limit_false.
Qed.

(** A constructed segment is absent, or has a kind and a number that
    [str] prints. *)
Lemma constructed_parts (t : Segment) :
  constructed t ->
  (_kind t = None /\ _number t = None) \/
  (exists k n, _kind t = Some k /\ _number t = Some n /\
               str_int n = Ok (decimal_str n)).
Proof.
  intros [value H]. apply segment_init_ok in H as [[_ ->]|H].
  - left. split; reflexivity.
  - destruct H as (? & g0 & ? & n & _ & _ & _ & Hn & _ & ->).
    right. exists g0, n. split; [reflexivity|]. split; [reflexivity|].
    unfold str_int. now rewrite (over_limit_false n (py_int_bound _ _ Hn)).
Qed.

(** C7, as stated, fails: the version with major [10 ^ 4300], an integer
    of 4301 digits, is constructed, and [str] of it raises the builtin
    [ValueError] of the limit on integer string conversion instead of
    yielding a string. *)
Lemma display_fails_for_long_int :
  exists v,
    constructed_version v /\
    SemanticVersion.__str__ v = Raise (ValueError (Message limit_message)) /\
    forall s, SemanticVersion.__str__ v <> Ok s.
Proof.
  exists (mkVersion (IInt (10 ^ int_max_str_digits)) (IInt 0) (IInt 0)
            (mkSegment None None)).
  split.
  - exists (PInt (10 ^ int_max_str_digits)), (PInt 0), (PInt 0), None.
    exact init_over_limit.
  - rewrite str_over_limit. split; [reflexivity | discriminate].
Qed.

(** C7, amended. A constructed segment is absent, and then prints as the
    empty string, or present, and then prints as its kind followed by its
    number in decimal. A constructed version whose three numbers have at
    most 4300 digits prints as "major.minor.patch", each number as [str]
    prints it (an [int] in decimal, a [bool] as True or False), followed
    by a dot and the segment only when the segment is present. So 1.0.0
    with segment "dev1" prints as "1.0.0.dev1". *)
Theorem display_contract (v : Version) (s : Segment)
  (Hv : constructed_version v) (Hs : constructed s) (Hl : within_limit v) :
  ((_kind s = None /\ _number s = None /\ _Segment.__str__ s = Ok "") \/
   (exists k n, _kind s = Some k /\ _number s = Some n /\
                _Segment.__str__ s = Ok (k ++ decimal_str n))) /\
  ((_Segment.isnone (_segment v) = Ok true /\
    SemanticVersion.__str__ v
    = Ok (pyint_text (_major v) ++ "." ++ pyint_text (_minor v) ++ "."
          ++ pyint_text (_patch v))) \/
   (exists k n,
       _Segment.isnone (_segment v) = Ok false /\
       _kind (_segment v) = Some k /\ _number (_segment v) = Some n /\
       SemanticVersion.__str__ v
       = Ok (pyint_text (_major v) ++ "." ++ pyint_text (_minor v) ++ "."
             ++ pyint_text (_patch v) ++ "." ++ k ++ decimal_str n))) /\
  (x <- SemanticVersion.__init__ (PInt 1) (PInt 0) (PInt 0) (Some "dev1") ;;
   SemanticVersion.__str__ x) = Ok "1.0.0.dev1" /\
  (x <- SemanticVersion.__init__ (PInt 1) (PInt 0) (PInt 0) None ;;
   SemanticVersion.__str__ x) = Ok "1.0.0" /\
  (x <- _Segment.__init__ None ;; _Segment.__str__ x) = Ok "".
Proof.
  split; [|split; [|repeat split; reflexivity]].
  - destruct (constructed_parts s Hs) as [[Hk Hn]|(k & n & Hk & Hn & Hstr)].
    + left. unfold _Segment.__str__, _Segment.isnone, _Segment.kind,
        _Segment.number. rewrite Hk, Hn. auto.
    + right. exists k, n. unfold _Segment.__str__, _Segment.isnone,
        _Segment.kind, _Segment.number. rewrite Hk, Hn.
      cbn [is_None Bool.eqb negb bind fmt_number fmt_kind].
      rewrite Hstr. auto.
  - destruct Hl as (La & Lb & Lc).
    destruct (constructed_parts _ (constructed_version_segment v Hv))
      as [[Hk Hn]|(k & n & Hk & Hn & Hstr)].
    + left. unfold SemanticVersion.__str__, SemanticVersion.segment,
        SemanticVersion.major, SemanticVersion.minor, SemanticVersion.patch,
        _Segment.isnone, _Segment.kind, _Segment.number.
      rewrite Hk, Hn.
      cbn [is_None Bool.eqb negb bind mapM SemanticVersion.str_elt].
      rewrite !str_pyint_within by assumption. auto.
    + right. exists k, n.
      unfold SemanticVersion.__str__, SemanticVersion.segment,
        SemanticVersion.major, SemanticVersion.minor, SemanticVersion.patch,
        _Segment.isnone, _Segment.kind, _Segment.number.
      rewrite Hk, Hn.
      cbn [is_None Bool.eqb negb bind mapM app SemanticVersion.str_elt].
      rewrite !str_pyint_within by assumption.
      unfold _Segment.__str__, _Segment.isnone, _Segment.kind,
        _Segment.number.
      rewrite Hk, Hn.
      cbn [is_None Bool.eqb negb bind fmt_number fmt_kind].
      rewrite Hstr. auto.
Qed.

Lemma display_contract_witness :
  SemanticVersion.__str__
    (mkVersion (IInt 2) (IInt 13) (IBool false)
       (mkSegment (Some "rc") (Some 4)))
  = Ok "2.13.False.rc4".
Proof.
  assert (Hv : constructed_version
                 (mkVersion (IInt 2) (IInt 13) (IBool false)
                    (mkSegment (Some "rc") (Some 4))))
    by (exists (PInt 2), (PStr "13"), (PBool false), (Some "rc4");
        reflexivity).
  assert (Hs : constructed (mkSegment None None)) by (exists None; reflexivity).
  assert (Hl : within_limit
                 (mkVersion (IInt 2) (IInt 13) (IBool false)
                    (mkSegment (Some "rc") (Some 4))))
    by (repeat split; apply Z.leb_le; reflexivity).
  destruct (display_contract _ _ Hv Hs Hl) as (_ & [[Hn _]|H] & _).
  - discriminate Hn.
  - destruct H as (k & n & _ & Hk & Hn & Hstr).
    injection Hk as <-. injection Hn as <-. exact Hstr.
Defined.

(** ** Operands of another type *)

(** C9. Whatever the segment or version, [__eq__] and [__lt__] given an
    operand that is not an instance of the same class raise nothing and
    return [NotImplemented]. *)
Theorem unrelated_operand_is_not_implemented
  (s : Segment) (v : Version) (other : object) :
  (_Segment.isinstance other = false ->
   _Segment.__eq__ s other = Ok NotImplemented /\
   _Segment.__lt__ s other = Ok NotImplemented) /\
  (SemanticVersion.isinstance other = false ->
   SemanticVersion.__eq__ v other = Ok NotImplemented /\
   SemanticVersion.__lt__ v other = Ok NotImplemented).
Proof.
  split; intros H; destruct other; try discriminate H; split; reflexivity.
Qed.

Lemma unrelated_operand_is_not_implemented_witness :
  _Segment.__eq__ (mkSegment (Some "dev") (Some 2)) (OValue (PStr "dev2"))
  = Ok NotImplemented /\
  SemanticVersion.__lt__ (mkVersion (IInt 1) (IInt 0) (IInt 0)
                             (mkSegment None None))
    (OSegment (mkSegment None None)) = Ok NotImplemented.
Proof.
  split.
  - apply (unrelated_operand_is_not_implemented
             (mkSegment (Some "dev") (Some 2))
             (mkVersion (IInt 0) (IInt 0) (IInt 0) (mkSegment None None))
             (OValue (PStr "dev2"))).
    reflexivity.
  - apply (unrelated_operand_is_not_implemented
             (mkSegment None None)
             (mkVersion (IInt 1) (IInt 0) (IInt 0) (mkSegment None None))
             (OSegment (mkSegment None None))).
    reflexivity.
Defined.

(** ** Hashing *)

Lemma getitem_rank (k : option string) (r : Z) :
  _Segment.getitem _Segment.rank_table k = Ok r -> kind_rank k r.
Proof.
  unfold _Segment.rank_table. cbn [_Segment.getitem _Segment.key_eqb].
  destruct k as [k|].
  - destruct (String.eqb_spec "dev" k) as [<-|?]; [intros [= <-]; constructor|].
    destruct (String.eqb_spec "alpha" k) as [<-|?];
      [intros [= <-]; constructor|].
    destruct (String.eqb_spec "beta" k) as [<-|?]; [intros [= <-]; constructor|].
    destruct (String.eqb_spec "rc" k) as [<-|?]; [intros [= <-]; constructor|].
    destruct (String.eqb_spec "post" k) as [<-|?];
      [intros [= <-]; constructor | discriminate].
  - intros [= <-]. constructor.
Qed.

(** Segments with equal sort keys have the same kind and number. *)
Lemma segment_eq_fields (a b : Segment) : seg_eq a b -> a = b.
Proof.
  unfold seg_eq, _Segment.__eq__, _Segment.sort_key, _Segment.kind,
    _Segment.number, tuple_eq.
  destruct (_Segment.getitem _Segment.rank_table (_kind a)) as [ra|] eqn:Ra;
    [|discriminate].
  destruct (_Segment.getitem _Segment.rank_table (_kind b)) as [rb|] eqn:Rb;
    [|discriminate].
  cbn [bind]. intros [= H]. apply py_eq_key in H as [-> Hn].
  apply getitem_rank in Ra, Rb.
  pose proof (kind_rank_kind _ _ _ Ra Rb) as Hk.
  destruct a, b. cbn in *. congruence.
Qed.

Lemma version_eq_fields (v w : Version) :
  SemanticVersion.__eq__ v (OVersion w) = Ok (PyBool true) ->
  (_major v : Z) = _major w /\ (_minor v : Z) = _minor w /\
  (_patch v : Z) = _patch w /\
  seg_eq (_segment v) (_segment w).
Proof.
  unfold SemanticVersion.__eq__, SemanticVersion.sort_key,
    SemanticVersion.segment, SemanticVersion.major, SemanticVersion.minor,
    SemanticVersion.patch, seg_eq, _Segment.__eq__, tuple_eq.
  destruct (_Segment.sort_key (_segment v)) as [kv|]; [|discriminate].
  destruct (_Segment.sort_key (_segment w)) as [kw|]; [|discriminate].
  cbn [bind py_eq]. intros [= H].
  apply andb_true_iff in H as [H1 H]. apply andb_true_iff in H as [H2 H].
  apply andb_true_iff in H as [H3 H]. apply andb_true_iff in H as [H4 _].
  apply Z.eqb_eq in H1, H2, H3. rewrite H4. auto.
Qed.

(** C8. When [a == b] holds between two segments, their hashes are the
    same; when [v == w] holds between two versions, their hashes are the
    same. This for any hash functions of the runtime. *)
Theorem hash_consistent_with_equality `{Hasher}
  (a b : Segment) (v w : Version) :
  (_Segment.__eq__ a (OSegment b) = Ok (PyBool true) ->
   _Segment.__hash__ a = _Segment.__hash__ b) /\
  (SemanticVersion.__eq__ v (OVersion w) = Ok (PyBool true) ->
   SemanticVersion.__hash__ v = SemanticVersion.__hash__ w).
Proof.
  split.
  - intros E. now rewrite (segment_eq_fields a b E).
  - intros E. apply version_eq_fields in E as (E1 & E2 & E3 & E4).
    apply segment_eq_fields in E4.
    unfold SemanticVersion.__hash__, SemanticVersion.segment,
      SemanticVersion.major, SemanticVersion.minor, SemanticVersion.patch.
    now rewrite E1, E2, E3, E4.
Qed.

Lemma hash_consistent_with_equality_witness :
  @_Segment.__hash__ sample_hasher (mkSegment (Some "dev") (Some 1))
  = @_Segment.__hash__ sample_hasher (mkSegment (Some "dev") (Some 1)) /\
  @SemanticVersion.__hash__ sample_hasher
    (mkVersion (IInt 10) (IInt 0) (IInt 0) (mkSegment None None))
  = @SemanticVersion.__hash__ sample_hasher
      (mkVersion (IInt 10) (IInt 0) (IInt 0) (mkSegment None None)).
Proof.
  split.
  - apply (@hash_consistent_with_equality sample_hasher
             (mkSegment (Some "dev") (Some 1)) (mkSegment (Some "dev") (Some 1))
             (mkVersion (IInt 0) (IInt 0) (IInt 0) (mkSegment None None))
             (mkVersion (IInt 0) (IInt 0) (IInt 0) (mkSegment None None))).
    reflexivity.
  - apply (@hash_consistent_with_equality sample_hasher
             (mkSegment None None) (mkSegment None None)
             (mkVersion (IInt 10) (IInt 0) (IInt 0) (mkSegment None None))
             (mkVersion (IInt 10) (IInt 0) (IInt 0) (mkSegment None None))).
    reflexivity.
Defined.

(** ** Whitespace around the segment slot *)

Lemma lstrip_spaces (w : string) :
  forall_chars is_space w = true -> lstrip w = "".
Proof.
  induction w as [|c w IH]; simpl; [reflexivity|].
  intros H. apply andb_true_iff in H as [Hc Hw]. rewrite Hc. now apply IH.
Qed.

Lemma lstrip_app_spaces (w s : string) :
  forall_chars is_space w = true -> lstrip (w ++ s) = lstrip s.
Proof.
  induction w as [|c w IH]; simpl; [reflexivity|].
  intros H. apply andb_true_iff in H as [Hc Hw]. rewrite Hc. now apply IH.
Qed.

Lemma rstrip_spaces (w : string) :
  forall_chars is_space w = true -> rstrip w = "".
Proof.
  induction w as [|c w IH]; simpl; [reflexivity|].
  intros H. apply andb_true_iff in H as [Hc Hw]. now rewrite Hc, (IH Hw).
Qed.

Lemma rstrip_app_spaces (s w : string) :
  forall_chars is_space w = true -> rstrip (s ++ w) = rstrip s.
Proof.
  intros Hw. induction s as [|c s IH]; simpl.
  - now apply rstrip_spaces.
  - now rewrite IH.
Qed.

Lemma lstrip_app (g w : string) :
  lstrip (g ++ w) = lstrip g ++ w \/ forall_chars is_space g = true.
Proof.
  induction g as [|c g IH]; simpl; [now right|].
  destruct (is_space c); [exact IH | now left].
Qed.

(** Whitespace on either side of a string does not change what [strip]
    returns. *)
Lemma strip_surrounded (w1 g w2 : string) :
  forall_chars is_space w1 = true -> forall_chars is_space w2 = true ->
  strip (w1 ++ g ++ w2) = strip g.
Proof.
  intros H1 H2. unfold strip. rewrite (lstrip_app_spaces _ _ H1).
  destruct (lstrip_app g w2) as [E|Hg].
  - rewrite E. now apply rstrip_app_spaces.
  - rewrite (lstrip_spaces g Hg).
    rewrite lstrip_spaces; [reflexivity|].
    now rewrite forall_chars_app, Hg, H2.
Qed.

Lemma split_four (M m p g : string) :
  forall_chars (not_sep ".") M = true -> forall_chars (not_sep ".") m = true ->
  forall_chars (not_sep ".") p = true -> forall_chars (not_sep ".") g = true ->
  split "." (M ++ "." ++ m ++ "." ++ p ++ "." ++ g) = [M; m; p; g].
Proof.
  intros HM Hm Hp Hg. cbn [append].
  rewrite !split_app_sep by assumption. now rewrite split_no_sep.
Qed.

Lemma split_three (M m p : string) :
  forall_chars (not_sep ".") M = true -> forall_chars (not_sep ".") m = true ->
  forall_chars (not_sep ".") p = true ->
  split "." (M ++ "." ++ m ++ "." ++ p) = [M; m; p].
Proof.
  intros HM Hm Hp. cbn [append].
  rewrite !split_app_sep by assumption. now rewrite split_no_sep.
Qed.

Lemma spaces_no_dot (w : string) :
  forall_chars is_space w = true -> forall_chars (not_sep ".") w = true.
Proof.
  apply forall_chars_impl. intros c H. unfold not_sep.
  now rewrite (is_space_not_sep _ H).
Qed.

(** C10. The fourth slot is stripped before the segment is built:
    whitespace before and after the text of the slot changes nothing in
    the outcome of [from_string], and a slot of whitespace only is the same
    as no fourth slot. So "1.2.3. dev1" parses, to the same version as
    "1.2.3.dev1", and "1.2.3." parses, to the same version as "1.2.3". *)
Theorem from_string_strips_segment_slot (M m p g w1 w2 : string)
  (HM : forall_chars (not_sep ".") M = true)
  (Hm : forall_chars (not_sep ".") m = true)
  (Hp : forall_chars (not_sep ".") p = true)
  (Hg : forall_chars (not_sep ".") g = true)
  (H1 : forall_chars is_space w1 = true)
  (H2 : forall_chars is_space w2 = true) :
  SemanticVersion.from_string (M ++ "." ++ m ++ "." ++ p ++ "." ++ w1 ++ g ++ w2)
  = SemanticVersion.from_string (M ++ "." ++ m ++ "." ++ p ++ "." ++ g) /\
  SemanticVersion.from_string (M ++ "." ++ m ++ "." ++ p ++ "." ++ w1)
  = SemanticVersion.from_string (M ++ "." ++ m ++ "." ++ p) /\
  SemanticVersion.from_string "1.2.3. dev1"
  = Ok (mkVersion (IInt 1) (IInt 2) (IInt 3)
           (mkSegment (Some "dev") (Some 1))) /\
  SemanticVersion.from_string "1.2.3.dev1"
  = Ok (mkVersion (IInt 1) (IInt 2) (IInt 3)
           (mkSegment (Some "dev") (Some 1))) /\
  SemanticVersion.from_string "1.2.3."
  = Ok (mkVersion (IInt 1) (IInt 2) (IInt 3) (mkSegment None None)) /\
  SemanticVersion.from_string "1.2.3"
  = Ok (mkVersion (IInt 1) (IInt 2) (IInt 3) (mkSegment None None)) /\
  eq_of (SemanticVersion.from_string "1.2.3. dev1")
        (SemanticVersion.from_string "1.2.3.dev1") = Ok true /\
  eq_of (SemanticVersion.from_string "1.2.3.")
        (SemanticVersion.from_string "1.2.3") = Ok true.
Proof.
  split; [|split; [|repeat split; reflexivity]].
  - assert (Hs : forall_chars (not_sep ".") (w1 ++ g ++ w2) = true).
    { rewrite !forall_chars_app, Hg.
      now rewrite (spaces_no_dot _ H1), (spaces_no_dot _ H2). }
    unfold SemanticVersion.from_string.
    rewrite (split_four M m p (w1 ++ g ++ w2)) by assumption.
    rewrite (split_four M m p g) by assumption.
    cbn [List.length Z.of_nat Z.ltb Z.compare Pos.compare Pos.compare_cont
         Pos.of_succ_nat Pos.succ Nat.sub repeat app removelast last].
    now rewrite (strip_surrounded w1 g w2 H1 H2).
  - unfold SemanticVersion.from_string.
    rewrite (split_four M m p w1) by (assumption || now apply spaces_no_dot).
    rewrite (split_three M m p) by assumption.
    cbn [List.length Z.of_nat Z.ltb Z.compare Pos.compare Pos.compare_cont
         Pos.of_succ_nat Pos.succ Nat.sub repeat app removelast last].
    unfold strip. rewrite (lstrip_spaces w1 H1). reflexivity.
Qed.

Lemma from_string_strips_segment_slot_witness :
  SemanticVersion.from_string "4.5.6.  rc2 "
  = SemanticVersion.from_string "4.5.6.rc2".
Proof.
  apply (from_string_strips_segment_slot "4" "5" "6" "rc2" "  " " ");
    reflexivity.
Defined.

(** ** The segment pattern *)

Lemma span_spec (p : ascii -> bool) (s a b : string) :
  span p s = (a, b) ->
  s = a ++ b /\ forall_chars p a = true /\
  match b with
  | EmptyString => True
  | String c _ => p c = false
  end.
Proof.
  revert a b. induction s as [|c s IH]; intros a b; simpl.
  - intros [= <- <-]. auto.
  - destruct (p c) eqn:Hc.
    + destruct (span p s) as [a' b'] eqn:Hs. intros [= <- <-].
      destruct (IH _ _ eq_refl) as (-> & Ha & Hb).
      cbn [forall_chars append]. rewrite Hc, Ha. auto.
    + intros [= <- <-]. simpl. auto.
Qed.

Lemma span_app (p : ascii -> bool) (a b : string) :
  forall_chars p a = true ->
  match b with
  | EmptyString => True
  | String c _ => p c = false
  end ->
  span p (a ++ b) = (a, b).
Proof.
  intros Ha Hb. induction a as [|c a IH]; simpl in *.
  - destruct b as [|c b]; [reflexivity | simpl; now rewrite Hb].
  - apply andb_true_iff in Ha as [Hc Ha]. now rewrite Hc, (IH Ha).
Qed.

(** What the compiled pattern matches: the strings of the worded pattern,
    and those strings followed by one line feed. *)
Lemma segment_re_match_spec (value g0 g1 : string) :
  _SEGMENT_SPLIT_RE_match value = Some (g0, g1) ->
  is_empty g0 = false /\ is_empty g1 = false /\
  forall_chars non_digit g0 = true /\ forall_chars is_digit g1 = true /\
  (value = g0 ++ g1 \/ value = g0 ++ g1 ++ String line_feed "").
Proof.
  unfold _SEGMENT_SPLIT_RE_match.
  destruct (span (fun c => negb (is_digit c)) value) as [k r] eqn:Hk.
  destruct (span is_digit r) as [d rest] eqn:Hd.
  destruct (is_empty k) eqn:Ek; [discriminate|].
  destruct (is_empty d) eqn:Ed; [discriminate|].
  cbn [negb andb]. destruct (at_dollar rest) eqn:Hr; [|discriminate].
  intros [= <- <-].
  apply span_spec in Hk as (-> & Hka & _).
  apply span_spec in Hd as (-> & Hda & _).
  do 4 (split; [assumption|]).
  destruct rest as [|c [|c' rest]]; try discriminate Hr.
  - left. now rewrite append_nil_r.
  - right. cbn in Hr. apply Ascii.eqb_eq in Hr. now subst c.
Qed.

Lemma segment_re_match_complete (s : string) :
  matches_segment_pattern s ->
  exists k d, s = k ++ d /\ _SEGMENT_SPLIT_RE_match s = Some (k, d) /\
              _SEGMENT_SPLIT_RE_match (s ++ String line_feed "") = Some (k, d).
Proof.
  intros (k & d & -> & Ek & Ed & Hk & Hd). exists k, d.
  split; [reflexivity|].
  assert (Hd0 : match d with
                | EmptyString => True
                | String c _ => non_digit c = false
                end).
  { destruct d as [|c d]; [exact I|]. simpl in Hd.
    apply andb_true_iff in Hd as [Hc _]. unfold non_digit. now rewrite Hc. }
  unfold _SEGMENT_SPLIT_RE_match. split.
  - change (fun c => negb (is_digit c)) with non_digit.
    rewrite (span_app non_digit k d Hk Hd0).
    rewrite <- (append_nil_r d) at 1.
    rewrite (span_app is_digit d "" Hd I). now rewrite Ek, Ed.
  - change (fun c => negb (is_digit c)) with non_digit.
    rewrite append_assoc.
    assert (Hd1 : match d ++ String line_feed "" with
                  | EmptyString => True
                  | String c _ => non_digit c = false
                  end).
    { destruct d as [|c d]; [discriminate Ed | exact Hd0]. }
    rewrite (span_app non_digit k _ Hk Hd1).
    rewrite (span_app is_digit d (String line_feed "") Hd eq_refl).
    now rewrite Ek, Ed.
Qed.

Lemma decimal_value_nonneg (s : string) :
  forall a, 0 <= a -> forall_chars is_digit s = true -> 0 <= decimal_value a s.
Proof.
  induction s as [|c s IH]; intros a Ha H;
    cbn [decimal_value forall_chars] in *; [assumption|].
  apply andb_true_iff in H as [Hc Hs]. apply IH; [|assumption].
  unfold is_digit in Hc. unfold digit_value. lia.
Qed.

(** How the constructor of a segment classifies a string. *)
Lemma segment_init_classification (value : string) :
  match _SEGMENT_SPLIT_RE_match value with
  | None =>
      _Segment.__init__ (Some value)
      = Raise (SegmentValueInvalidError value "Cannot extract parts")
  | Some (g0, g1) =>
      match _Segment._verify_kind g0 with
      | Ok k =>
          k = g0 /\ 0 <= decimal_value 0 g1 /\
          _Segment.__init__ (Some value)
          = if int_max_str_digits <? Z.of_nat (String.length g1)
            then Raise (PositiveIntegerValueError "segment.number" (PStr g1)
                          (ReasonExc (InvalidLiteral g1)))
            else Ok (mkSegment (Some g0) (Some (decimal_value 0 g1)))
      | Raise e => _Segment.__init__ (Some value) = Raise e
      end
  end.
Proof.
  unfold _Segment.__init__.
  destruct (_SEGMENT_SPLIT_RE_match value) as [[g0 g1]|] eqn:Hm; [|reflexivity].
  destruct (_Segment._verify_kind g0) as [k|e] eqn:Hk; [|reflexivity].
  apply verify_kind_ok in Hk as [-> _].
  apply segment_re_match_spec in Hm as (_ & Ed & _ & Hd & _).
  pose proof (decimal_value_nonneg g1 0 ltac:(lia) Hd) as Hn.
  split; [reflexivity|]. split; [assumption|].
  cbn [bind]. unfold _verify_number.
  destruct (int_max_str_digits <? Z.of_nat (String.length g1)) eqn:El.
  - unfold py_int. rewrite (count_digits_all g1 Hd), El. reflexivity.
  - apply Z.ltb_ge in El.
    rewrite (py_int_all_digits g1 Hd Ed El). cbn [bind int_value].
    destruct (decimal_value 0 g1 <? 0) eqn:E; [apply Z.ltb_lt in E; lia|].
    reflexivity.
Qed.

(** X14. A string that is neither of the form "non-digits, then digits"
    nor of that form followed by one line feed is refused by the
    constructor of a segment with [SegmentValueInvalidError], carrying the
    string and the reason "Cannot extract parts". *)
Lemma segment_init_outside_pattern (value : string) :
  ~ matches_segment_pattern value ->
  (forall s, matches_segment_pattern s -> value <> s ++ String line_feed "") ->
  _Segment.__init__ (Some value)
  = Raise (SegmentValueInvalidError value "Cannot extract parts").
Proof.
  intros Hn Hl. unfold _Segment.__init__.
  destruct (_SEGMENT_SPLIT_RE_match value) as [[g0 g1]|] eqn:Hm; [|reflexivity].
  exfalso.
  apply segment_re_match_spec in Hm as (E0 & E1 & H0 & H1 & [->| ->]).
  - apply Hn. exists g0, g1. auto.
  - apply (Hl (g0 ++ g1)); [exists g0, g1; auto|]. now rewrite append_assoc.
Qed.

(** X13. When the pattern matches, the prefix decides: the five kinds are
    accepted, with the decimal value of the digits as number, when the
    digits are at most 4300; with more digits [int()] refuses them and
    the constructor raises [PositiveIntegerValueError] for the field
    segment.number, with the digits and the error of [int()]; the seven
    synonyms raise [SegmentKindSynonymUsedError] with the synonym and the
    canonical kind; any other prefix raises [SegmentKindUnknownError] with
    the prefix. *)
Lemma segment_init_by_kind (value g0 g1 : string) :
  _SEGMENT_SPLIT_RE_match value = Some (g0, g1) ->
  (In g0 ["dev"; "alpha"; "beta"; "rc"; "post"] ->
   (Z.of_nat (String.length g1) <= int_max_str_digits ->
    _Segment.__init__ (Some value)
    = Ok (mkSegment (Some g0) (Some (decimal_value 0 g1)))) /\
   (int_max_str_digits < Z.of_nat (String.length g1) ->
    py_int g1 = None /\
    _Segment.__init__ (Some value)
    = Raise (PositiveIntegerValueError "segment.number" (PStr g1)
               (ReasonExc (InvalidLiteral g1))))) /\
  (forall canonical,
      In (g0, canonical)
         [("a", "alpha"); ("b", "beta"); ("c", "rc"); ("pre", "rc");
          ("preview", "rc"); ("r", "post"); ("rev", "post")] ->
      _Segment.__init__ (Some value)
      = Raise (SegmentKindSynonymUsedError g0 canonical)) /\
  (~ In g0 ["dev"; "alpha"; "beta"; "rc"; "post"; "a"; "b"; "c"; "pre";
            "preview"; "r"; "rev"] ->
   _Segment.__init__ (Some value) = Raise (SegmentKindUnknownError g0)).
Proof.
  intros Hm. pose proof (segment_init_classification value) as H.
  rewrite Hm in H. split; [|split].
  - intros Hin.
    assert (Hinit : _Segment.__init__ (Some value)
                    = if int_max_str_digits <? Z.of_nat (String.length g1)
                      then Raise (PositiveIntegerValueError "segment.number"
                                    (PStr g1) (ReasonExc (InvalidLiteral g1)))
                      else Ok (mkSegment (Some g0)
                                 (Some (decimal_value 0 g1)))).
    { simpl in Hin.
      destruct Hin as [<-|[<-|[<-|[<-|[<-|[]]]]]];
        cbn [_Segment._verify_kind String.eqb Ascii.eqb Bool.eqb orb] in H;
        apply H. }
    apply segment_re_match_spec in Hm as (_ & _ & _ & Hd & _).
    rewrite Hinit. split; intros Hlen.
    + apply Z.ltb_ge in Hlen. now rewrite Hlen.
    + split.
      * unfold py_int. rewrite (count_digits_all g1 Hd).
        apply Z.ltb_lt in Hlen. now rewrite Hlen.
      * apply Z.ltb_lt in Hlen. now rewrite Hlen.
  - intros canonical Hin. simpl in Hin.
    repeat (destruct Hin as [Hin|Hin];
            [injection Hin as <- <-; cbn in H; exact H|]).
    destruct Hin.
  - intros Hout. simpl in Hout.
    unfold _Segment._verify_kind in H.
    repeat match type of H with
           | context [String.eqb g0 ?k] =>
               destruct (String.eqb_spec g0 k);
               [exfalso; apply Hout; subst g0; tauto|]
           end.
    exact H.
Qed.

(** C5. The constructor of a segment does not reject every string outside
    the pattern "non-digits, then digits, and nothing else": the string
    "dev1" followed by a line feed is outside it, and is accepted as the
    segment dev1 instead of raising [SegmentValueInvalidError]. *)
Theorem segment_accepts_trailing_line_feed :
  let value := "dev1" ++ String line_feed "" in
  ~ matches_segment_pattern value /\
  _Segment.__init__ (Some value) = Ok (mkSegment (Some "dev") (Some 1)) /\
  _Segment.__init__ (Some value)
  <> Raise (SegmentValueInvalidError value "Cannot extract parts") /\
  (s <- _Segment.__init__ (Some value) ;; _Segment.__str__ s) = Ok "dev1".
Proof.
  cbv zeta. split; [|repeat split; try reflexivity; discriminate].
  intros (k & d & Heq & Ek & Ed & Hk & Hd).
  cbn in Heq.
  repeat (destruct k as [|? k];
          [cbn in Heq; subst d; discriminate Hd
          |cbn in Heq; injection Heq as <- Heq]).
  destruct k; [|discriminate Heq]. cbn in Heq. subst d. discriminate Ed.
Qed.

(** ** Numeric fields *)









(** * Further properties of the version model *)

(** ** Invariants of the instances *)

(** X1. A constructed segment has its kind and its number both absent or
    both present; a present kind is one of dev, alpha, beta, rc, post; a
    present number is not negative; [isnone] does not raise on it and tells
    whether the segment is absent. *)
Theorem constructed_segment_invariant (s : Segment) (H : constructed s) :
  (_kind s = None <-> _number s = None) /\
  (forall k, _kind s = Some k -> In k kinds) /\
  (forall n, _number s = Some n -> 0 <= n) /\
  _Segment.isnone s = Ok (is_None (_kind s)).
Proof.
  destruct H as [value H]. apply segment_init_ok in H as [[_ ->]|H].
  - repeat split; try discriminate; reflexivity.
  - destruct H as (v & g0 & g1 & n & _ & _ & Hk & _ & Hn & ->).
    cbn [_kind _number]. repeat split; try discriminate.
    + intros k [= <-]. unfold kinds. simpl.
      destruct Hk as [-> | [-> | [-> | [-> | ->]]]]; auto 6.
    + intros m [= <-]. exact Hn.
Qed.

Lemma constructed_segment_invariant_witness :
  _Segment.isnone (mkSegment (Some "beta") (Some 3)) = Ok false.
Proof.
  assert (H : constructed (mkSegment (Some "beta") (Some 3)))
    by (exists (Some "beta3"); reflexivity).
  exact (proj2 (proj2 (proj2 (constructed_segment_invariant _ H)))).
Defined.

Lemma from_string_constructed (text : string) (v : Version) :
  SemanticVersion.from_string text = Ok v -> constructed_version v.
Proof.
  unfold SemanticVersion.from_string.
  destruct (4 <? Z.of_nat (List.length (split "." text))); [discriminate|].
  destruct (mapM SemanticVersion._to_int _) as [nums|]; [|discriminate].
  cbn [bind]. destruct nums as [|a [|b [|c [|d l]]]]; try discriminate.
  intros H. eexists _, _, _, _. exact H.
Qed.

(** X2. Whatever [from_string] returns is a version that the constructor
    returns: its three numbers are not negative and its segment is a
    constructed segment. *)
Theorem from_string_invariant (text : string) (v : Version)
  (H : SemanticVersion.from_string text = Ok v) :
  constructed_version v /\
  0 <= _major v /\ 0 <= _minor v /\ 0 <= _patch v /\
  constructed (_segment v).
Proof.
  apply from_string_constructed in H. split; [assumption|].
  destruct (constructed_version_nonneg v H) as (Ha & Hb & Hc).
  repeat split; try assumption. now apply constructed_version_segment.
Qed.

Lemma from_string_invariant_witness :
  constructed (mkSegment (Some "post") (Some 2)).
Proof.
  apply (from_string_invariant "3.1.4. post2"
           (mkVersion (IInt 3) (IInt 1) (IInt 4)
               (mkSegment (Some "post") (Some 2)))).
  reflexivity.
Defined.

(** ** Comparisons as orders *)

Lemma constructed_getitem (s : Segment) :
  constructed s ->
  exists r,
    _Segment.getitem _Segment.rank_table (_kind s) = Ok r /\
    _Segment.sort_key s = Ok (VTuple [VInt r; val_of_number (_number s)]) /\
    kind_rank (_kind s) r /\ (r = 4 <-> _number s = None).
Proof.
  intros H. destruct (constructed_key s H) as (r & Hk & Hr & Hn & _).
  exists r. repeat split; try assumption; try apply Hn.
  unfold _Segment.sort_key, _Segment.kind in Hk.
  destruct (_Segment.getitem _Segment.rank_table (_kind s)) as [r'|];
    [|discriminate Hk].
  cbn [bind] in Hk. now injection Hk as ->.
Qed.

(** On constructed segments the comparisons are those of the integer
    keys, and equal keys mean equal fields. *)
Lemma segment_key_compare (a b : Segment) :
  constructed a -> constructed b ->
  (exists x, _Segment.__lt__ a (OSegment b) = Ok (PyBool x) /\
             (x = true <-> lex2 (seg_key a) (seg_key b))) /\
  (exists y, _Segment.__eq__ a (OSegment b) = Ok (PyBool y) /\
             (y = true <-> seg_key a = seg_key b)) /\
  (seg_key a = seg_key b <-> a = b).
Proof.
  intros Ha Hb.
  destruct (constructed_getitem a Ha) as (ra & Ga & Ka & Ra & Na).
  destruct (constructed_getitem b Hb) as (rb & Gb & Kb & Rb & Nb).
  destruct (py_lt_key ra rb _ _ Na Nb) as (x & Hx & Hxs).
  pose proof (py_eq_key ra rb (_number a) (_number b)) as He.
  unfold _Segment.__lt__, _Segment.__eq__, tuple_lt, tuple_eq, seg_key, lex2.
  rewrite Ka, Kb, Ga, Gb. cbn [bind fst snd]. rewrite Hx.
  assert (Hkey : (ra, match _number a with Some n => n | None => 0 end)
                 = (rb, match _number b with Some n => n | None => 0 end)
                 <-> ra = rb /\ _number a = _number b).
  { split.
    - intros [= -> Hn]. split; [reflexivity|].
      destruct (_number a) as [n|], (_number b) as [m|]; try congruence.
      + exfalso. assert (rb = 4) by (apply Nb; reflexivity).
        assert (Some n = None) by (apply Na; assumption). discriminate.
      + exfalso. assert (rb = 4) by (apply Na; reflexivity).
        assert (Some m = None) by (apply Nb; assumption). discriminate.
    - intros [-> ->]. reflexivity. }
  split; [|split].
  - exists x. split; [reflexivity|]. rewrite Hxs.
    destruct (_number a) as [n|], (_number b) as [m|]; cbn [number_lt];
      try tauto.
    + split; [intros [?|[-> []]]; auto|].
      intros [?|[-> ?]]; [auto|]. exfalso.
      assert (rb = 4) by (apply Nb; reflexivity).
      assert (Some n = None) by (apply Na; assumption). discriminate.
    + split; [intros [?|[-> []]]; auto|].
      intros [?|[-> ?]]; [auto|]. exfalso.
      assert (rb = 4) by (apply Na; reflexivity).
      assert (Some m = None) by (apply Nb; assumption). discriminate.
    + split; [intros [?|[-> []]]; auto|]. intros [?|[-> ?]]; [auto | lia].
  - eexists. split; [reflexivity|]. rewrite He. symmetry. exact Hkey.
  - rewrite Hkey. split.
    + intros [-> Hn]. pose proof (kind_rank_kind _ _ _ Ra Rb) as Hk.
      destruct a, b. cbn in *. congruence.
    + intros ->. rewrite (kind_rank_inj _ _ _ Ra Rb). auto.
Qed.

Lemma version_fields_eq (a b : Version) :
  constructed_version a -> constructed_version b ->
  (same_fields a b <->
   (_major a : Z) = _major b /\ (_minor a : Z) = _minor b /\
   (_patch a : Z) = _patch b /\
   seg_key (_segment a) = seg_key (_segment b)).
Proof.
  intros Ha Hb. apply constructed_version_segment in Ha, Hb.
  destruct (segment_key_compare _ _ Ha Hb) as (_ & _ & Hk).
  rewrite Hk. unfold same_fields. tauto.
Qed.

(** [__lt__] and [__eq__] between constructed versions answer with a
    boolean: the lexicographic order, and the equality of the fields. *)
Lemma version_key_compare (a b : Version) :
  constructed_version a -> constructed_version b ->
  (exists x, SemanticVersion.__lt__ a (OVersion b) = Ok (PyBool x) /\
             (x = true <-> ver_lex a b)) /\
  (exists y, SemanticVersion.__eq__ a (OVersion b) = Ok (PyBool y) /\
             (y = true <-> same_fields a b)).
Proof.
  intros Ha Hb.
  destruct (version_compare a b Ha Hb)
    as (ka & kb & Ka & Kb & Sa & Sb & (x & Hx) & Hlt).
  pose proof (constructed_version_segment a Ha) as Hsa.
  pose proof (constructed_version_segment b Hb) as Hsb.
  destruct (segment_key_compare _ _ Hsa Hsb)
    as ((u & Hu & Hus) & (w & Hw & Hws) & Hk).
  split.
  - exists x. split; [assumption|]. unfold ver_lex. rewrite <- Hus.
    assert (Hseg : seg_lt (_segment a) (_segment b) <-> u = true).
    { unfold seg_lt. rewrite Hu.
      split; [intros [= ->]; reflexivity | intros ->; reflexivity]. }
    rewrite <- Hseg, <- Hlt, Hx.
    split; [intros ->; reflexivity | intros [= ->]; reflexivity].
  - unfold SemanticVersion.__eq__, tuple_eq. rewrite Sa, Sb. cbn [bind].
    eexists. split; [reflexivity|].
    rewrite (version_fields_eq a b Ha Hb), <- Hws.
    unfold _Segment.__eq__, tuple_eq in Hw. rewrite Ka, Kb in Hw.
    cbn [bind] in Hw. injection Hw as Hw.
    cbn [py_eq]. rewrite Hw, !andb_true_iff, !Z.eqb_eq. tauto.
Qed.

Lemma version_ops (a b : Version) :
  constructed_version a -> constructed_version b ->
  (ver_lt a b <-> ver_lex a b) /\ (ver_eq a b <-> same_fields a b) /\
  (exists x, SemanticVersion.op_lt a b = Ok x) /\
  (exists y, SemanticVersion.op_eq a b = Ok y).
Proof.
  intros Ha Hb.
  destruct (version_key_compare a b Ha Hb) as ((x & Hx & Hxs) & (y & Hy & Hys)).
  unfold ver_lt, ver_eq, SemanticVersion.op_lt, SemanticVersion.op_eq.
  rewrite Hx, Hy. cbn [bind]. rewrite <- Hxs, <- Hys.
  repeat split; try (intros [= ->]; reflexivity); try (intros ->; reflexivity);
    eauto.
Qed.

(** X3. Between constructed versions [==] answers with a boolean and holds
    exactly when the two versions have the same numbers, as integers
    ([True] being 1 and [False] 0), the same kind and the same segment
    number; so, when no number is a [bool], exactly when the two versions
    have the same fields. It is reflexive, symmetric and transitive. *)
Theorem version_equality_is_structural (a b c : Version)
  (Ha : constructed_version a) (Hb : constructed_version b)
  (Hc : constructed_version c) :
  (exists y, SemanticVersion.op_eq a b = Ok y) /\
  (ver_eq a b <-> same_fields a b) /\
  (no_bool_field a -> no_bool_field b -> (ver_eq a b <-> a = b)) /\
  ver_eq a a /\
  (ver_eq a b -> ver_eq b a) /\
  (ver_eq a b -> ver_eq b c -> ver_eq a c).
Proof.
  destruct (version_ops a b Ha Hb) as (_ & Eab & _ & Hy).
  destruct (version_ops a a Ha Ha) as (_ & Eaa & _).
  destruct (version_ops b a Hb Ha) as (_ & Eba & _).
  destruct (version_ops b c Hb Hc) as (_ & Ebc & _).
  destruct (version_ops a c Ha Hc) as (_ & Eac & _).
  rewrite Eab, Eaa, Eba, Ebc, Eac. unfold same_fields.
  split; [assumption|]. split; [tauto|]. split.
  { intros (A1 & A2 & A3) (B1 & B2 & B3). split; [|intros ->; auto].
    destruct a as [[M|?] [m|?] [p|?] sa]; try discriminate.
    destruct b as [[M'|?] [m'|?] [p'|?] sb]; try discriminate.
    cbn [_major _minor _patch _segment int_value].
    intros (-> & -> & -> & ->). reflexivity. }
  repeat split; try assumption; intuition congruence.
Qed.

Lemma version_equality_is_structural_witness :
  ver_eq (mkVersion (IInt 1) (IInt 2) (IInt 3) (mkSegment (Some "rc") (Some 1)))
         (mkVersion (IInt 1) (IInt 2) (IInt 3)
             (mkSegment (Some "rc") (Some 1))).
Proof.
  assert (H : constructed_version
                (mkVersion (IInt 1) (IInt 2) (IInt 3)
                    (mkSegment (Some "rc") (Some 1))))
    by (exists (PInt 1), (PStr "02"), (PInt 3), (Some "rc1"); reflexivity).
  exact (proj1 (proj2 (proj2 (proj2
           (version_equality_is_structural _ _ _ H H H))))).
Defined.

(** X4. Between constructed versions [<] answers with a boolean and is a
    strict total order: it is irreflexive and transitive, and exactly one
    of [a < b], [a == b], [b < a] holds. *)
Theorem version_order_is_strict_total (a b c : Version)
  (Ha : constructed_version a) (Hb : constructed_version b)
  (Hc : constructed_version c) :
  (exists x, SemanticVersion.op_lt a b = Ok x) /\
  ~ ver_lt a a /\
  (ver_lt a b -> ver_lt b c -> ver_lt a c) /\
  (ver_lt a b \/ ver_eq a b \/ ver_lt b a) /\
  ~ (ver_lt a b /\ ver_eq a b) /\
  ~ (ver_lt a b /\ ver_lt b a) /\
  ~ (ver_eq a b /\ ver_lt b a).
Proof.
  destruct (version_ops a b Ha Hb) as (Lab & Eab & Hx & _).
  destruct (version_ops a a Ha Ha) as (Laa & _).
  destruct (version_ops b a Hb Ha) as (Lba & _).
  destruct (version_ops b c Hb Hc) as (Lbc & _).
  destruct (version_ops a c Ha Hc) as (Lac & _).
  split; [assumption|].
  rewrite Lab, Laa, Lba, Lbc, Lac, Eab, (version_fields_eq a b Ha Hb).
  unfold ver_lex, lex2.
  destruct (seg_key (_segment a)) as [ra na].
  destruct (seg_key (_segment b)) as [rb nb].
  destruct (seg_key (_segment c)) as [rc nc].
  cbn [fst snd].
  assert (Hp : (ra, na) = (rb, nb) <-> ra = rb /\ na = nb)
    by (split; [intros [= -> ->]; auto | intros [-> ->]; reflexivity]).
  rewrite Hp. lia.
Qed.

Lemma version_order_is_strict_total_witness :
  ver_lt (mkVersion (IInt 1) (IInt 2) (IInt 3) (mkSegment (Some "rc") (Some 1)))
         (mkVersion (IInt 1) (IInt 2) (IInt 3)
             (mkSegment (Some "post") (Some 1))).
Proof.
  assert (Ha : constructed_version
                 (mkVersion (IInt 1) (IInt 2) (IInt 3)
                     (mkSegment (Some "rc") (Some 1))))
    by (exists (PInt 1), (PInt 2), (PInt 3), (Some "rc1"); reflexivity).
  assert (Hb : constructed_version (mkVersion (IInt 1) (IInt 2) (IInt 3)
                                       (mkSegment None None)))
    by (exists (PInt 1), (PInt 2), (PInt 3), None; reflexivity).
  assert (Hc : constructed_version
                 (mkVersion (IInt 1) (IInt 2) (IInt 3)
                     (mkSegment (Some "post") (Some 1))))
    by (exists (PInt 1), (PInt 2), (PInt 3), (Some "post1"); reflexivity).
  pose proof (version_order_is_strict_total _ _ _ Ha Hb Hc)
    as (_ & _ & Ht & _).
  apply Ht; reflexivity.
Defined.

(** ** The comparisons derived by [functools.total_ordering] *)

Lemma lex2_trichotomy (p q : Z * Z) :
  (lex2 p q \/ p = q \/ lex2 q p) /\
  ~ (lex2 p q /\ p = q) /\ ~ (lex2 p q /\ lex2 q p) /\ ~ (p = q /\ lex2 q p).
Proof.
  destruct p as [a b], q as [c d]. unfold lex2. cbn [fst snd].
  assert (Hp : (a, b) = (c, d) <-> a = c /\ b = d)
    by (split; [intros [= -> ->]; auto | intros [-> ->]; reflexivity]).
  rewrite Hp. lia.
Qed.

Lemma ver_lex_trichotomy (a b : Version) :
  constructed_version a -> constructed_version b ->
  (ver_lex a b \/ same_fields a b \/ ver_lex b a) /\
  ~ (ver_lex a b /\ same_fields a b) /\ ~ (ver_lex a b /\ ver_lex b a) /\
  ~ (same_fields a b /\ ver_lex b a).
Proof.
  intros Ha Hb. rewrite (version_fields_eq a b Ha Hb). unfold ver_lex, lex2.
  destruct (seg_key (_segment a)) as [ra na].
  destruct (seg_key (_segment b)) as [rb nb].
  cbn [fst snd].
  assert (Hp : (ra, na) = (rb, nb) <-> ra = rb /\ na = nb)
    by (split; [intros [= -> ->]; auto | intros [-> ->]; reflexivity]).
  rewrite Hp. lia.
Qed.

(** Case analysis on three booleans tied to a trichotomy. *)
Lemma trichotomy_bools (L E G : Prop) (x y z : bool) :
  (x = true <-> L) -> (y = true <-> E) -> (z = true <-> G) ->
  (L \/ E \/ G) -> ~ (L /\ E) -> ~ (L /\ G) -> ~ (E /\ G) ->
  (if x then false else negb y) = z /\
  (if x then true else y) = negb z /\
  negb x = (if z then true else y).
Proof.
  intros Hx Hy Hz H1 H2 H3 H4.
  destruct x, y, z; repeat split; try reflexivity; exfalso;
    intuition discriminate.
Qed.

(** X5. Between constructed versions the derived comparisons agree with
    [<] and [==]: [a > b] is [b < a], [a <= b] is [not b < a], [a >= b]
    is [b <= a], [a != b] is [not a == b]; none of them raises. Given an
    operand that is not a version, they return [NotImplemented]. *)
Theorem version_derived_comparisons (a b : Version) (other : object)
  (Ha : constructed_version a) (Hb : constructed_version b) :
  (exists lt_ab lt_ba eq_ab : bool,
      SemanticVersion.__lt__ a (OVersion b) = Ok (PyBool lt_ab) /\
      SemanticVersion.__lt__ b (OVersion a) = Ok (PyBool lt_ba) /\
      SemanticVersion.__eq__ a (OVersion b) = Ok (PyBool eq_ab) /\
      SemanticVersion.__gt__ a (OVersion b) = Ok (PyBool lt_ba) /\
      SemanticVersion.__le__ a (OVersion b) = Ok (PyBool (negb lt_ba)) /\
      SemanticVersion.__ge__ a (OVersion b) = Ok (PyBool (negb lt_ab)) /\
      SemanticVersion.__ge__ a (OVersion b)
      = SemanticVersion.__le__ b (OVersion a) /\
      SemanticVersion.__ne__ a (OVersion b) = Ok (PyBool (negb eq_ab)) /\
      SemanticVersion.op_gt a b = Ok lt_ba) /\
  (SemanticVersion.isinstance other = false ->
   SemanticVersion.__gt__ a other = Ok NotImplemented /\
   SemanticVersion.__le__ a other = Ok NotImplemented /\
   SemanticVersion.__ge__ a other = Ok NotImplemented /\
   SemanticVersion.__ne__ a other = Ok NotImplemented).
Proof.
  split.
  - destruct (version_key_compare a b Ha Hb) as ((x & Hx & Hxs) & (y & Hy & Hys)).
    destruct (version_key_compare b a Hb Ha) as ((z & Hz & Hzs) & (w & Hw & Hws)).
    destruct (ver_lex_trichotomy a b Ha Hb) as (T1 & T2 & T3 & T4).
    destruct (trichotomy_bools _ _ _ x y z Hxs Hys Hzs T1 T2 T3 T4)
      as (Hgt & Hle & Hge).
    assert (Hyw : y = w).
    { destruct y, w; try reflexivity.
      - assert (E : same_fields a b) by (now apply Hys).
        assert (E' : same_fields b a)
          by (unfold same_fields in *; intuition congruence).
        apply Hws in E'. discriminate E'.
      - assert (E : same_fields b a) by (now apply Hws).
        assert (E' : same_fields a b)
          by (unfold same_fields in *; intuition congruence).
        apply Hys in E'. discriminate E'. }
    exists x, z, y.
    unfold SemanticVersion.op_gt, SemanticVersion.__gt__,
      SemanticVersion.__le__, SemanticVersion.__ge__, SemanticVersion.__ne__.
    rewrite Hx, Hy, Hz, Hw. cbn [bind]. rewrite <- Hgt, <- Hyw.
    repeat split; try reflexivity.
    + destruct x; reflexivity.
    + rewrite Hgt, <- Hle. destruct x; reflexivity.
    + rewrite Hge, Hgt. destruct z; reflexivity.
    + destruct x; reflexivity.
  - intros H. destruct other; try discriminate H; repeat split; reflexivity.
Qed.

Lemma version_derived_comparisons_witness :
  SemanticVersion.__le__ (mkVersion (IInt 1) (IInt 0) (IInt 0)
                             (mkSegment None None))
    (OValue (PStr "1.0.0")) = Ok NotImplemented.
Proof.
  assert (H : constructed_version (mkVersion (IInt 1) (IInt 0) (IInt 0)
                                      (mkSegment None None)))
    by (exists (PInt 1), (PInt 0), (PInt 0), None; reflexivity).
  apply (version_derived_comparisons _ _ (OValue (PStr "1.0.0")) H H).
  reflexivity.
Defined.

(** X6. Between constructed segments the derived comparisons agree with
    [<] and [==] in the same way, and none of them raises; given an
    operand that is not a segment, they return [NotImplemented]. *)
Theorem segment_derived_comparisons (a b : Segment) (other : object)
  (Ha : constructed a) (Hb : constructed b) :
  (exists lt_ab lt_ba eq_ab : bool,
      _Segment.__lt__ a (OSegment b) = Ok (PyBool lt_ab) /\
      _Segment.__lt__ b (OSegment a) = Ok (PyBool lt_ba) /\
      _Segment.__eq__ a (OSegment b) = Ok (PyBool eq_ab) /\
      _Segment.__gt__ a (OSegment b) = Ok (PyBool lt_ba) /\
      _Segment.__le__ a (OSegment b) = Ok (PyBool (negb lt_ba)) /\
      _Segment.__ge__ a (OSegment b) = Ok (PyBool (negb lt_ab)) /\
      _Segment.__ge__ a (OSegment b) = _Segment.__le__ b (OSegment a) /\
      _Segment.__ne__ a (OSegment b) = Ok (PyBool (negb eq_ab))) /\
  (_Segment.isinstance other = false ->
   _Segment.__gt__ a other = Ok NotImplemented /\
   _Segment.__le__ a other = Ok NotImplemented /\
   _Segment.__ge__ a other = Ok NotImplemented /\
   _Segment.__ne__ a other = Ok NotImplemented).
Proof.
  split.
  - destruct (segment_key_compare a b Ha Hb) as ((x & Hx & Hxs) & (y & Hy & Hys) & _).
    destruct (segment_key_compare b a Hb Ha) as ((z & Hz & Hzs) & (w & Hw & Hws) & _).
    destruct (lex2_trichotomy (seg_key a) (seg_key b)) as (T1 & T2 & T3 & T4).
    destruct (trichotomy_bools _ _ _ x y z Hxs Hys Hzs T1 T2 T3 T4)
      as (Hgt & Hle & Hge).
    assert (Hyw : y = w).
    { destruct y, w; try reflexivity.
      - assert (E : seg_key a = seg_key b) by (now apply Hys).
        symmetry in E. apply Hws in E. discriminate E.
      - assert (E : seg_key b = seg_key a) by (now apply Hws).
        symmetry in E. apply Hys in E. discriminate E. }
    exists x, z, y.
    unfold _Segment.__gt__, _Segment.__le__, _Segment.__ge__, _Segment.__ne__.
    rewrite Hx, Hy, Hz, Hw. cbn [bind]. rewrite <- Hgt, <- Hyw.
    repeat split; try reflexivity.
    + destruct x; reflexivity.
    + rewrite Hgt, <- Hle. destruct x; reflexivity.
    + rewrite Hge, Hgt. destruct z; reflexivity.
  - intros H. destruct other; try discriminate H; repeat split; reflexivity.
Qed.

Lemma segment_derived_comparisons_witness :
  _Segment.__gt__ (mkSegment (Some "dev") (Some 2)) (OValue (PInt 2))
  = Ok NotImplemented.
Proof.
  assert (H : constructed (mkSegment (Some "dev") (Some 2)))
    by (exists (Some "dev2"); reflexivity).
  apply (segment_derived_comparisons _ _ (OValue (PInt 2)) H H).
  reflexivity.
Defined.

(** ** The two tables of kinds *)

(** X7. [_segment_text_to_number] agrees with [_verify_kind] and with the
    ranks of [sort_key]: a kind that [_verify_kind] accepts gets its rank
    plus one; a synonym that [_verify_kind] rejects gets the number of the
    canonical kind named in the error, which is an accepted kind; a text
    that [_verify_kind] does not know is refused with [ValueError]; no
    segment gets 5, the rank of the absent segment plus one. *)
Theorem segment_text_to_number_agrees (value : string) :
  match _Segment._verify_kind value with
  | Ok k =>
      k = value /\
      exists r, _Segment.getitem _Segment.rank_table (Some k) = Ok r /\
                SemanticVersion._segment_text_to_number (Some value)
                = Ok (r + 1)
  | Raise (SegmentKindSynonymUsedError v expected) =>
      v = value /\
      _Segment._verify_kind expected = Ok expected /\
      SemanticVersion._segment_text_to_number (Some value)
      = SemanticVersion._segment_text_to_number (Some expected)
  | Raise (SegmentKindUnknownError v) =>
      v = value /\
      SemanticVersion._segment_text_to_number (Some value)
      = Raise (ValueError (Message value))
  | Raise _ => False
  end /\
  (exists r, _Segment.getitem _Segment.rank_table None = Ok r /\
             SemanticVersion._segment_text_to_number None = Ok (r + 1)).
Proof.
  split; [|exists 4; split; reflexivity].
  unfold _Segment._verify_kind.
  destruct (String.eqb_spec value "dev") as [->|N1];
    [split; [reflexivity | exists 0; split; reflexivity]|].
  destruct (String.eqb_spec value "alpha") as [->|N2];
    [split; [reflexivity | exists 1; split; reflexivity]|].
  destruct (String.eqb_spec value "beta") as [->|N3];
    [split; [reflexivity | exists 2; split; reflexivity]|].
  destruct (String.eqb_spec value "rc") as [->|N4];
    [split; [reflexivity | exists 3; split; reflexivity]|].
  destruct (String.eqb_spec value "post") as [->|N5];
    [split; [reflexivity | exists 5; split; reflexivity]|].
  cbn [orb].
  destruct (String.eqb_spec value "a") as [->|N6];
    [repeat split; reflexivity|].
  destruct (String.eqb_spec value "b") as [->|N7];
    [repeat split; reflexivity|].
  destruct (String.eqb_spec value "c") as [->|N8];
    [repeat split; reflexivity|].
  destruct (String.eqb_spec value "pre") as [->|N9];
    [repeat split; reflexivity|].
  destruct (String.eqb_spec value "preview") as [->|N10];
    [repeat split; reflexivity|].
  cbn [orb].
  destruct (String.eqb_spec value "r") as [->|N11];
    [repeat split; reflexivity|].
  destruct (String.eqb_spec value "rev") as [->|N12];
    [repeat split; reflexivity|].
  cbn [orb]. split; [reflexivity|].
  unfold SemanticVersion._segment_text_to_number.
  repeat match goal with
         | H : value <> ?k |- context [String.eqb value ?k] =>
             rewrite (proj2 (String.eqb_neq value k) H)
         end.
  reflexivity.
Qed.

(** ** Printing and parsing back, with a segment *)

Lemma rstrip_digits (d : string) :
  forall_chars is_digit d = true -> rstrip d = d.
Proof.
  induction d as [|c d IH]; [reflexivity|]. cbn [forall_chars rstrip].
  intros H. apply andb_true_iff in H as [Hc Hd].
  now rewrite (IH Hd), (is_digit_not_space _ Hc).
Qed.

Lemma rstrip_app_digits (a d : string) :
  forall_chars is_digit d = true -> is_empty d = false ->
  rstrip (a ++ d) = a ++ d.
Proof.
  intros Hd Hne. induction a as [|x a IH]; cbn [append rstrip].
  - now apply rstrip_digits.
  - rewrite IH.
    assert (E : is_empty (a ++ d) = false)
      by (destruct a; [exact Hne | reflexivity]).
    now rewrite E, andb_false_r.
Qed.

Lemma kind_digits_slot (k d : string) :
  In k kinds -> forall_chars is_digit d = true -> is_empty d = false ->
  forall_chars (not_sep ".") (k ++ d) = true /\
  strip (k ++ d) = k ++ d /\
  is_empty (k ++ d) = false /\
  _SEGMENT_SPLIT_RE_match (k ++ d) = Some (k, d) /\
  _Segment._verify_kind k = Ok k.
Proof.
  intros Hk Hd Hne.
  assert (Hmatch : _SEGMENT_SPLIT_RE_match (k ++ d) = Some (k, d)).
  { assert (Hp : matches_segment_pattern (k ++ d)).
    { exists k, d. repeat split; try assumption;
        unfold kinds in Hk; simpl in Hk;
        destruct Hk as [<- | [<- | [<- | [<- | [<- | []]]]]]; reflexivity. }
    destruct (segment_re_match_complete _ Hp) as (k' & d' & Heq & Hm & _).
    pose proof Hm as Hm'.
    apply segment_re_match_spec in Hm' as (_ & _ & Hk' & Hd' & _).
    rewrite Hm. f_equal.
    assert (Hspan : span non_digit (k ++ d) = (k, d)).
    { apply span_app.
      - unfold kinds in Hk; simpl in Hk.
        destruct Hk as [<- | [<- | [<- | [<- | [<- | []]]]]]; reflexivity.
      - destruct d as [|c d]; [exact I|]. simpl in Hd.
        apply andb_true_iff in Hd as [Hc _]. unfold non_digit.
        now rewrite Hc. }
    assert (Hspan' : span non_digit (k' ++ d') = (k', d')).
    { apply span_app; [assumption|].
      destruct d' as [|c d']; [exact I|]. simpl in Hd'.
      apply andb_true_iff in Hd' as [Hc _]. unfold non_digit.
      now rewrite Hc. }
    rewrite Heq in Hspan. congruence. }
  split; [|split; [|split; [|split]]]; try assumption.
  - rewrite forall_chars_app, (digits_no_dot _ Hd), andb_true_r.
    unfold kinds in Hk; simpl in Hk.
    destruct Hk as [<- | [<- | [<- | [<- | [<- | []]]]]]; reflexivity.
  - unfold strip.
    assert (Hl : lstrip (k ++ d) = k ++ d).
    { unfold kinds in Hk; simpl in Hk.
      destruct Hk as [<- | [<- | [<- | [<- | [<- | []]]]]]; reflexivity. }
    rewrite Hl. now apply rstrip_app_digits.
  - unfold kinds in Hk; simpl in Hk.
    destruct Hk as [<- | [<- | [<- | [<- | [<- | []]]]]]; reflexivity.
  - unfold kinds in Hk; simpl in Hk.
    destruct Hk as [<- | [<- | [<- | [<- | [<- | []]]]]]; reflexivity.
Qed.

(** What [str] returns for a constructed version whose numbers are ints
    proper within the limit is parsed back by [from_string] to that
    version. *)
Lemma from_string_str (v : Version) :
  constructed_version v -> plain_version v ->
  exists s, SemanticVersion.__str__ v = Ok s /\
            SemanticVersion.from_string s = Ok v.
Proof.
  intros Hv (PM & Pm & Pp).
  pose proof (constructed_version_segment v Hv) as [value Hs].
  destruct v as [M m p sg]. cbn [_major _minor _patch _segment] in *.
  apply segment_init_ok in Hs as [[_ ->]|Hs].
  - destruct PM as (a & -> & Ha & La), Pm as (b & -> & Hb & Lb),
        Pp as (c & -> & Hc & Lc).
    exists (join "." [decimal a; decimal b; decimal c]).
    rewrite from_string_of_three, str_of_three by (eexists; eauto).
    split; reflexivity.
  - destruct PM as (a & -> & Ha & La), Pm as (b & -> & Hb & Lb),
        Pp as (c & -> & Hc & Lc).
    destruct Hs as (x & g0 & g1 & n & _ & _ & Hk & Hpi & Hn & ->).
    pose proof (py_int_bound _ _ Hpi) as Ln.
    assert (Hin : In g0 kinds).
    { unfold kinds. simpl.
      destruct Hk as [-> | [-> | [-> | [-> | ->]]]]; auto 6. }
    destruct (decimal_spec n Hn) as (Dn & Nn & _).
    destruct (kind_digits_slot g0 (decimal n) Hin Dn Nn)
      as (Hdot & Hstrip & Hne & Hmatch & Hkind).
    destruct (decimal_spec _ Ha) as (DM & _ & _).
    destruct (decimal_spec _ Hb) as (Dm & _ & _).
    destruct (decimal_spec _ Hc) as (Dp & _ & _).
    exists (decimal a ++ "." ++ decimal b ++ "." ++ decimal c ++ "."
            ++ g0 ++ decimal n).
    split.
    + unfold SemanticVersion.__str__, SemanticVersion.segment,
        SemanticVersion.major, SemanticVersion.minor, SemanticVersion.patch.
      cbn [_segment _major _minor _patch _Segment.isnone _Segment.kind
           _Segment.number _kind _number is_None Bool.eqb negb bind app
           mapM SemanticVersion.str_elt str_pyint].
      rewrite !str_int_nonneg by assumption. cbn [bind].
      unfold _Segment.__str__.
      cbn [_Segment.isnone _Segment.kind _Segment.number _kind _number
           is_None Bool.eqb negb bind fmt_number fmt_kind].
      rewrite !str_int_nonneg by assumption. reflexivity.
    + unfold SemanticVersion.from_string.
      rewrite split_four by (assumption || now apply digits_no_dot).
      cbn [List.length Z.of_nat Z.ltb Z.compare Pos.compare Pos.compare_cont
           Pos.of_succ_nat Pos.succ Nat.sub repeat app removelast last mapM].
      unfold SemanticVersion._to_int.
      rewrite !py_int_decimal by assumption. cbn [bind].
      rewrite Hstrip, Hne.
      unfold SemanticVersion.__init__.
      rewrite !verify_number_int by assumption. cbn [bind].
      unfold _Segment.__init__. rewrite Hmatch, Hkind. cbn [bind].
      unfold _verify_number. rewrite (py_int_decimal n Hn Ln). cbn [bind].
      destruct (n <? 0) eqn:E; [apply Z.ltb_lt in E; lia|].
      reflexivity.
Qed.

(** X8. Round trip with or without a segment: for every constructed
    version whose three numbers are ints proper (no [bool]) of at most
    4300 digits, [str] returns a string that [from_string] parses back to
    the same version, which compares [==] to it. *)
Theorem roundtrip_any_version (v : Version)
  (Hv : constructed_version v) (Hp : plain_version v) :
  exists s,
    SemanticVersion.__str__ v = Ok s /\
    SemanticVersion.from_string s = Ok v /\
    (w <- SemanticVersion.from_string s ;; SemanticVersion.op_eq w v) = Ok true.
Proof.
  destruct (from_string_str v Hv Hp) as (s & Hs & Hq).
  exists s. rewrite Hq. cbn [bind]. repeat split; try assumption.
  apply (version_ops v v Hv Hv). unfold same_fields. auto.
Qed.

Lemma roundtrip_any_version_witness :
  exists s,
    SemanticVersion.__str__
      (mkVersion (IInt 2) (IInt 0) (IInt 1) (mkSegment (Some "beta") (Some 12)))
    = Ok s /\
    SemanticVersion.from_string s
    = Ok (mkVersion (IInt 2) (IInt 0) (IInt 1)
            (mkSegment (Some "beta") (Some 12))) /\
    (w <- SemanticVersion.from_string s ;;
     SemanticVersion.op_eq w
       (mkVersion (IInt 2) (IInt 0) (IInt 1)
          (mkSegment (Some "beta") (Some 12)))) = Ok true.
Proof.
  apply roundtrip_any_version.
  - exists (PInt 2), (PInt 0), (PInt 1), (Some "beta12"). reflexivity.
  - repeat split; eexists; (split; [reflexivity|]);
      (split; [lia | apply Z.leb_le; reflexivity]).
Defined.

Lemma str_pyint_ok (n : pyint) (t : string) :
  str_pyint n = Ok t -> t = pyint_text n.
Proof.
  destruct n as [z|b]; cbn [str_pyint pyint_text]; [|congruence].
  unfold str_int. destruct (over_limit z); [discriminate | congruence].
Qed.

Lemma pyint_text_no_dot (n : pyint) :
  0 <= n -> forall_chars (not_sep ".") (pyint_text n) = true.
Proof.
  destruct n as [z|[|]]; cbn [int_value pyint_text]; try reflexivity.
  intros Hz. rewrite (decimal_str_nonneg z Hz).
  apply digits_no_dot. now apply decimal_spec.
Qed.

Lemma pyint_text_inj (n m : pyint) :
  0 <= n -> 0 <= m -> pyint_text n = pyint_text m -> n = m.
Proof.
  assert (Hd : forall z b, 0 <= z ->
                 decimal z <> pyint_text (IBool b)).
  { intros z b Hz E. destruct (decimal_spec z Hz) as (D & _ & _).
    rewrite E in D. destruct b; discriminate D. }
  destruct n as [z|b], m as [z'|b']; cbn [int_value];
    intros Hn Hm; cbn [pyint_text].
  - rewrite !decimal_str_nonneg by assumption. intros E.
    destruct (decimal_spec z Hn) as (_ & _ & V).
    destruct (decimal_spec z' Hm) as (_ & _ & V').
    rewrite E in V. congruence.
  - rewrite decimal_str_nonneg by assumption. intros E.
    now apply (Hd z b') in E.
  - rewrite decimal_str_nonneg by assumption. intros E. symmetry in E.
    now apply (Hd z' b) in E.
  - destruct b, b'; (reflexivity || discriminate).
Qed.

(** The shape of what [str] returns for a constructed version. *)
Lemma str_version_parts (v : Version) (s : string) :
  constructed_version v -> SemanticVersion.__str__ v = Ok s ->
  (_segment v = mkSegment None None /\
   s = pyint_text (_major v) ++ "." ++ pyint_text (_minor v) ++ "."
       ++ pyint_text (_patch v)) \/
  (exists k n,
      _segment v = mkSegment (Some k) (Some n) /\ In k kinds /\ 0 <= n /\
      s = pyint_text (_major v) ++ "." ++ pyint_text (_minor v) ++ "."
          ++ pyint_text (_patch v) ++ "." ++ k ++ decimal n).
Proof.
  intros Hv. pose proof (constructed_version_segment v Hv) as [value Hs].
  unfold SemanticVersion.__str__, SemanticVersion.segment,
    SemanticVersion.major, SemanticVersion.minor, SemanticVersion.patch.
  apply segment_init_ok in Hs as [[_ Hs]|Hs].
  - rewrite Hs.
    cbn [_Segment.isnone _Segment.kind _Segment.number _kind _number
         is_None Bool.eqb negb bind mapM SemanticVersion.str_elt].
    destruct (str_pyint (_major v)) as [tM|] eqn:EM; [|discriminate].
    destruct (str_pyint (_minor v)) as [tm|] eqn:Em; [|discriminate].
    destruct (str_pyint (_patch v)) as [tp|] eqn:Ep; [|discriminate].
    apply str_pyint_ok in EM, Em, Ep. subst. cbn [bind join].
    intros [= <-]. left. auto.
  - destruct Hs as (x & g0 & g1 & n & _ & _ & Hk & Hpi & Hn & Hs).
    rewrite Hs.
    cbn [_Segment.isnone _Segment.kind _Segment.number _kind _number
         is_None Bool.eqb negb bind mapM app SemanticVersion.str_elt].
    destruct (str_pyint (_major v)) as [tM|] eqn:EM; [|discriminate].
    destruct (str_pyint (_minor v)) as [tm|] eqn:Em; [|discriminate].
    destruct (str_pyint (_patch v)) as [tp|] eqn:Ep; [|discriminate].
    apply str_pyint_ok in EM, Em, Ep. subst. cbn [bind].
    unfold _Segment.__str__.
    cbn [_Segment.isnone _Segment.kind _Segment.number _kind _number
         is_None Bool.eqb negb bind fmt_number fmt_kind].
    rewrite (str_int_nonneg n Hn (py_int_bound _ _ Hpi)). cbn [bind join].
    intros [= <-]. right. exists g0, n.
    split; [reflexivity|]. split; [|auto].
    unfold kinds. simpl.
    destruct Hk as [-> | [-> | [-> | [-> | ->]]]]; auto 6.
Qed.

(** X9. [str] tells constructed versions apart: two constructed versions
    that print as the same string are the same version. *)
Theorem str_is_injective (v w : Version) (s : string)
  (Hv : constructed_version v) (Hw : constructed_version w)
  (Sv : SemanticVersion.__str__ v = Ok s)
  (Sw : SemanticVersion.__str__ w = Ok s) :
  v = w /\ ver_eq v w.
Proof.
  assert (E : v = w).
  { destruct (constructed_version_nonneg v Hv) as (HM & Hm & Hp).
    destruct (constructed_version_nonneg w Hw) as (HM' & Hm' & Hp').
    pose proof (pyint_text_no_dot _ HM) as DM.
    pose proof (pyint_text_no_dot _ Hm) as Dm.
    pose proof (pyint_text_no_dot _ Hp) as Dp.
    pose proof (pyint_text_no_dot _ HM') as DM'.
    pose proof (pyint_text_no_dot _ Hm') as Dm'.
    pose proof (pyint_text_no_dot _ Hp') as Dp'.
    assert (Hslot : forall k n, In k kinds -> 0 <= n ->
              forall_chars (not_sep ".") (k ++ decimal n) = true /\
              _SEGMENT_SPLIT_RE_match (k ++ decimal n) = Some (k, decimal n)).
    { intros k n Hk Hn. destruct (decimal_spec n Hn) as (Dn & Nn & _).
      destruct (kind_digits_slot k (decimal n) Hk Dn Nn)
        as (H1 & _ & _ & H2 & _). auto. }
    apply (str_version_parts v s Hv) in Sv.
    apply (str_version_parts w s Hw) in Sw.
    destruct v as [M m p sv], w as [M' m' p' sw].
    cbn [_major _minor _patch _segment] in *.
    destruct Sv as [[-> Sv]|(k & n & -> & Hk & Hn & Sv)];
      destruct Sw as [[-> Sw]|(k' & n' & -> & Hk' & Hn' & Sw)];
      apply (f_equal (split ".")) in Sv, Sw.
    - rewrite split_three in Sv, Sw by assumption. rewrite Sv in Sw.
      injection Sw as E1 E2 E3.
      apply pyint_text_inj in E1, E2, E3; try assumption. now subst.
    - destruct (Hslot k' n' Hk' Hn') as (Hd' & _).
      rewrite split_three in Sv by assumption.
      rewrite split_four in Sw by assumption.
      rewrite Sv in Sw. discriminate Sw.
    - destruct (Hslot k n Hk Hn) as (Hd & _).
      rewrite split_four in Sv by assumption.
      rewrite split_three in Sw by assumption.
      rewrite Sv in Sw. discriminate Sw.
    - destruct (Hslot k n Hk Hn) as (Hd & Hr).
      destruct (Hslot k' n' Hk' Hn') as (Hd' & Hr').
      rewrite split_four in Sv, Sw by assumption. rewrite Sv in Sw.
      injection Sw as E1 E2 E3 E4.
      apply pyint_text_inj in E1, E2, E3; try assumption. subst.
      rewrite E4 in Hr. rewrite Hr' in Hr. injection Hr as <- Hr.
      destruct (decimal_spec n Hn) as (_ & _ & V).
      destruct (decimal_spec n' Hn') as (_ & _ & V').
      rewrite <- Hr in V. assert (En : n = n') by congruence.
      rewrite En. reflexivity. }
  subst w. split; [reflexivity|].
  apply (version_ops v v Hv Hv). unfold same_fields. auto.
Qed.

Lemma str_is_injective_witness :
  ver_eq (mkVersion (IInt 0) (IInt 0) (IInt 0) (mkSegment None None))
         (mkVersion (IInt 0) (IInt 0) (IInt 0) (mkSegment None None)).
Proof.
  assert (H : constructed_version (mkVersion (IInt 0) (IInt 0) (IInt 0)
                                      (mkSegment None None)))
    by (exists (PStr "0"), (PInt 0), (PStr " 0"), None; reflexivity).
  apply (str_is_injective _ _ "0.0.0" H H); reflexivity.
Defined.

(** ** Failures of the constructors and of the parser *)

Lemma verify_kind_raises (g : string) (e : exn) :
  _Segment._verify_kind g = Raise e ->
  (exists expected, e = SegmentKindSynonymUsedError g expected) \/
  e = SegmentKindUnknownError g.
Proof.
  unfold _Segment._verify_kind.
  repeat match goal with
         | |- context [if ?b then _ else _] => destruct b
         end; intros [= <-]; eauto.
Qed.

Lemma segment_init_raises (value : option string) (e : exn) :
  _Segment.__init__ value = Raise e ->
  exists v,
    value = Some v /\
    (e = SegmentValueInvalidError v "Cannot extract parts" \/
     exists g0 g1,
       _SEGMENT_SPLIT_RE_match v = Some (g0, g1) /\
       ((exists expected, e = SegmentKindSynonymUsedError g0 expected) \/
        e = SegmentKindUnknownError g0 \/
        (int_max_str_digits < Z.of_nat (String.length g1) /\
         e = PositiveIntegerValueError "segment.number" (PStr g1)
               (ReasonExc (InvalidLiteral g1))))).
Proof.
  destruct value as [v|]; [|discriminate]. intros H. exists v.
  split; [reflexivity|].
  pose proof (segment_init_classification v) as Hc.
  destruct (_SEGMENT_SPLIT_RE_match v) as [[g0 g1]|] eqn:Hm.
  - right. exists g0, g1. split; [reflexivity|].
    destruct (_Segment._verify_kind g0) as [k|e'] eqn:Hk.
    + destruct Hc as (_ & _ & Hc). rewrite Hc in H.
      destruct (int_max_str_digits <? Z.of_nat (String.length g1)) eqn:El;
        [|discriminate H].
      apply Z.ltb_lt in El. injection H as <-. auto.
    + assert (e' = e) as -> by congruence.
      apply verify_kind_raises in Hk as [Hk|Hk]; auto.
  - left. congruence.
Qed.

(** A failure of [_verify_number] on an integer that [int()] returned. *)
Lemma verify_number_int_raises (z : Z) (s field : string) (e : exn) :
  py_int s = Some z ->
  _verify_number (PInt z) field = Raise e ->
  z < 0 /\ e = PositiveIntegerValueError field (PInt z) (ReasonStr "Negative").
Proof.
  intros Hs. unfold _verify_number. cbn [bind].
  destruct (z <? 0) eqn:E; [|discriminate]. apply Z.ltb_lt in E.
  unfold raise_PositiveIntegerValueError. cbn [repr_fails].
  rewrite (over_limit_false z (py_int_bound _ _ Hs)).
  intros [= <-]. auto.
Qed.



Lemma pad_to_four (l : list string) :
  l <> [] -> (List.length l <= 4)%nat ->
  exists a b c d, (l ++ repeat "" (4 - List.length l))%list = [a; b; c; d].
Proof.
  intros Hne Hlen.
  destruct l as [|a [|b [|c [|d [|x l]]]]]; try congruence;
    cbn in *; try lia; eauto.
Qed.

(** X11. Every failure of [from_string] is one of: the builtin
    [ValueError] for more than four parts; the builtin [ValueError] of
    [int()] for a numeric slot that [int()] rejects; a
    [PositiveIntegerValueError] "Negative" for major, minor or patch,
    with the negative integer; or, for the stripped fourth slot, one of
    the three errors of the segment, or a [PositiveIntegerValueError] for
    the field segment.number, with the error of [int()] as cause, when
    the slot has more than 4300 digits. It never raises a [TypeError] or
    a [KeyError], nor a [PositiveIntegerValueError] with another cause. *)
Theorem from_string_errors (text : string) (e : exn)
  (H : SemanticVersion.from_string text = Raise e) :
  e = ValueError (Message ("Cannot parse " ++ text ++ ": too much elements")) \/
  (exists slot, In slot (firstn 3 (split "." text ++ repeat "" 3)) /\
                py_int slot = None /\ e = ValueError (InvalidLiteral slot)) \/
  (exists field z,
      In field ["major"; "minor"; "patch"] /\ z < 0 /\
      e = PositiveIntegerValueError field (PInt z) (ReasonStr "Negative")) \/
  (exists v,
      strip v = v /\ is_empty v = false /\
      (e = SegmentValueInvalidError v "Cannot extract parts" \/
       exists g0 g1,
         _SEGMENT_SPLIT_RE_match v = Some (g0, g1) /\
         ((exists expected, e = SegmentKindSynonymUsedError g0 expected) \/
          e = SegmentKindUnknownError g0 \/
          (int_max_str_digits < Z.of_nat (String.length g1) /\
           e = PositiveIntegerValueError "segment.number" (PStr g1)
                 (ReasonExc (InvalidLiteral g1)))))).
Proof.
  unfold SemanticVersion.from_string in H.
  destruct (4 <? Z.of_nat (List.length (split "." text))) eqn:E;
    [injection H as <-; auto|].
  apply Z.ltb_ge in E.
  destruct (pad_to_four (split "." text) (split_not_nil _ _) ltac:(lia))
    as (a & b & c & d & Hpad).
  assert (Hslots : firstn 3 (split "." text ++ repeat "" 3) = [a; b; c]).
  { pose proof (split_not_nil "." text) as Hne.
    destruct (split "." text) as [|x1 [|x2 [|x3 [|x4 [|x5 l]]]]];
      try congruence; cbn in *; try lia; congruence. }
  rewrite Hpad in H. cbn [removelast mapM last] in H.
  unfold SemanticVersion._to_int in H. right.
  destruct (py_int a) as [A|] eqn:Ea; cbn [bind] in H.
  2:{ injection H as <-. left. exists a. rewrite Hslots. simpl. auto. }
  destruct (py_int b) as [B|] eqn:Eb; cbn [bind] in H.
  2:{ injection H as <-. left. exists b. rewrite Hslots. simpl. auto. }
  destruct (py_int c) as [C|] eqn:Ec; cbn [bind] in H.
  2:{ injection H as <-. left. exists c. rewrite Hslots. simpl. auto. }
  right. unfold SemanticVersion.__init__ in H.
  destruct (_verify_number (PInt A) "major") as [A'|e1] eqn:HA.
  2:{ injection H as ->.
      apply (verify_number_int_raises _ _ _ _ Ea) in HA as [Hz ->].
      left. exists "major", A. simpl. auto. }
  destruct (_verify_number (PInt B) "minor") as [B'|e2] eqn:HB.
  2:{ injection H as ->.
      apply (verify_number_int_raises _ _ _ _ Eb) in HB as [Hz ->].
      left. exists "minor", B. simpl. auto. }
  destruct (_verify_number (PInt C) "patch") as [C'|e3] eqn:HC.
  2:{ injection H as ->.
      apply (verify_number_int_raises _ _ _ _ Ec) in HC as [Hz ->].
      left. exists "patch", C. simpl. auto. }
  cbn [bind] in H. right.
  destruct (is_empty (strip d)) eqn:Hd; [discriminate H|].
  destruct (_Segment.__init__ (Some (strip d))) as [s|e4] eqn:Hs;
    [discriminate H|].
  injection H as ->.
  destruct (segment_init_raises _ _ Hs) as (v & Hv & Hcase).
  injection Hv as <-. exists (strip d).
  repeat split; try assumption.
  unfold strip.
  assert (Hl : forall s, lstrip (lstrip s) = lstrip s).
  { induction s as [|x s IH]; [reflexivity|]. cbn [lstrip].
    destruct (is_space x) eqn:Hx; [exact IH|]. cbn [lstrip]. now rewrite Hx. }
  assert (Hr : forall s, rstrip (rstrip s) = rstrip s).
  { induction s as [|x s IH]; [reflexivity|]. cbn [rstrip].
    destruct (is_space x && is_empty (rstrip s)) eqn:Hx; [reflexivity|].
    cbn [rstrip]. now rewrite IH, Hx. }
  assert (Hlr : forall s, lstrip s = s -> lstrip (rstrip s) = rstrip s).
  { intros s Hs0. destruct s as [|x s]; [reflexivity|].
    cbn [lstrip] in Hs0. destruct (is_space x) eqn:Hx.
    - exfalso. clear -Hs0.
      assert (Hlen : forall t, (String.length (lstrip t) <= String.length t)%nat).
      { induction t as [|y t IH]; [simpl; lia|]. cbn [lstrip].
        destruct (is_space y); simpl in *; lia. }
      specialize (Hlen s). rewrite Hs0 in Hlen. simpl in Hlen. lia.
    - cbn [rstrip]. rewrite Hx. cbn [andb lstrip]. now rewrite Hx. }
  rewrite Hlr by apply Hl. now rewrite Hr.
Qed.

Lemma from_string_errors_witness :
  exists field z,
    In field ["major"; "minor"; "patch"] /\ z < 0 /\
    PositiveIntegerValueError "minor" (PInt (-1)) (ReasonStr "Negative")
    = PositiveIntegerValueError field (PInt z) (ReasonStr "Negative").
Proof.
  destruct (from_string_errors "1.-1.0.a1" _ eq_refl)
    as [H|[(slot & _ & _ & H)|[H|(v & _ & _ & H)]]].
  - discriminate H.
  - discriminate H.
  - exact H.
  - exfalso.
    destruct H as [H|(g0 & g1 & _ & [(x & H)|[H|(_ & H)]])]; discriminate H.
Defined.

Lemma segment_init_by_kind_witness :
  _Segment.__init__ (Some "preview3")
  = Raise (SegmentKindSynonymUsedError "preview" "rc") /\
  _Segment.__init__ (Some "post007") = Ok (mkSegment (Some "post") (Some 7)) /\
  _Segment.__init__ (Some "p1") = Raise (SegmentKindUnknownError "p").
Proof.
  split; [|split].
  - destruct (segment_init_by_kind "preview3" "preview" "3" eq_refl)
      as (_ & H & _).
    apply H. simpl. auto 6.
  - destruct (segment_init_by_kind "post007" "post" "007" eq_refl)
      as (H & _).
    apply H; [simpl; auto 6 | apply Z.leb_le; reflexivity].
  - destruct (segment_init_by_kind "p1" "p" "1" eq_refl) as (_ & _ & H).
    apply H. simpl. intros Hin.
    repeat (destruct Hin as [Hin|Hin]; [discriminate Hin|]). exact Hin.
Defined.

Lemma no_digits_no_pattern (s : string) :
  forall_chars non_digit s = true -> ~ matches_segment_pattern s.
Proof.
  intros Hs (k & d & -> & _ & Ed & _ & Hd).
  rewrite forall_chars_app in Hs. apply andb_true_iff in Hs as [_ Hs].
  destruct d as [|c d]; [discriminate Ed|]. cbn [forall_chars] in Hs, Hd.
  apply andb_true_iff in Hs as [Hc _]. apply andb_true_iff in Hd as [Hc' _].
  unfold non_digit in Hc. rewrite Hc' in Hc. discriminate Hc.
Qed.

Lemma segment_init_outside_pattern_witness :
  _Segment.__init__ (Some "alpha")
  = Raise (SegmentValueInvalidError "alpha" "Cannot extract parts").
Proof.
  apply segment_init_outside_pattern.
  - apply no_digits_no_pattern. reflexivity.
  - intros s (k & d & -> & _ & Ed & _ & Hd) Heq.
    assert (H : forall_chars non_digit ((k ++ d) ++ String line_feed "") = true)
      by (rewrite <- Heq; reflexivity).
    rewrite !forall_chars_app in H.
    apply andb_true_iff in H as [H _]. apply andb_true_iff in H as [_ H].
    destruct d as [|c d]; [discriminate Ed|]. cbn [forall_chars] in H, Hd.
    apply andb_true_iff in H as [Hc _]. apply andb_true_iff in Hd as [Hc' _].
    unfold non_digit in Hc. rewrite Hc' in Hc. discriminate Hc.
Defined.

(** ** What the pattern matches *)

(** X15. [_SEGMENT_SPLIT_RE.match] succeeds with the groups (k, d) exactly
    when k is a nonempty run of characters other than 0-9, d a nonempty
    run of 0-9, and the string is k followed by d, or k followed by d and
    one line feed. *)
Theorem segment_pattern_matches (value k d : string) :
  _SEGMENT_SPLIT_RE_match value = Some (k, d) <->
  is_empty k = false /\ is_empty d = false /\
  forall_chars non_digit k = true /\ forall_chars is_digit d = true /\
  (value = k ++ d \/ value = k ++ d ++ String line_feed "").
Proof.
  split; [apply segment_re_match_spec|].
  intros (Ek & Ed & Hk & Hd & Hv).
  assert (Hd0 : match d with
                | EmptyString => True
                | String c _ => non_digit c = false
                end).
  { destruct d as [|c d']; [exact I|]. cbn [forall_chars] in Hd.
    apply andb_true_iff in Hd as [Hc _]. unfold non_digit. now rewrite Hc. }
  unfold _SEGMENT_SPLIT_RE_match.
  change (fun c => negb (is_digit c)) with non_digit.
  destruct Hv as [-> | ->].
  - rewrite (span_app non_digit k d Hk Hd0).
    rewrite <- (append_nil_r d) at 1.
    rewrite (span_app is_digit d "" Hd I). now rewrite Ek, Ed.
  - assert (Hd1 : match d ++ String line_feed "" with
                  | EmptyString => True
                  | String c _ => non_digit c = false
                  end)
      by (destruct d; [discriminate Ed | exact Hd0]).
    rewrite (span_app non_digit k _ Hk Hd1).
    rewrite (span_app is_digit d (String line_feed "") Hd eq_refl).
    now rewrite Ek, Ed.
Qed.

(** ** Pre-releases, release, post-releases *)

(** X12. Among constructed versions with the same major, minor and patch,
    whatever the numbers of the segments: a dev, alpha, beta or rc version
    comes before the version without segment, which comes before a post
    version. A version with a smaller patch comes before, whatever the
    segments. *)
Theorem release_between_pre_and_post (a b : Version)
  (Ha : constructed_version a) (Hb : constructed_version b)
  (HM : (_major a : Z) = _major b) (Hm : (_minor a : Z) = _minor b) :
  ((_patch a : Z) = _patch b ->
   In (_kind (_segment a)) [Some "dev"; Some "alpha"; Some "beta"; Some "rc"] ->
   _kind (_segment b) = None \/ _kind (_segment b) = Some "post" ->
   ver_lt a b) /\
  ((_patch a : Z) = _patch b ->
   _kind (_segment a) = None -> _kind (_segment b) = Some "post" ->
   ver_lt a b) /\
  (_patch a < _patch b -> ver_lt a b).
Proof.
  destruct (version_ops a b Ha Hb) as (Hlt & _).
  rewrite Hlt. unfold ver_lex, lex2, seg_key.
  split; [|split].
  - intros Hp Hka Hkb. simpl in Hka.
    destruct Hka as [<- | [<- | [<- | [<- | []]]]];
      destruct Hkb as [-> | ->]; cbn; lia.
  - intros Hp -> ->. cbn. lia.
  - intros Hp. lia.
Qed.

Lemma release_between_pre_and_post_witness :
  ver_lt (mkVersion (IInt 1) (IInt 4) (IInt 0)
             (mkSegment (Some "rc") (Some 99)))
         (mkVersion (IInt 1) (IInt 4) (IInt 0) (mkSegment None None)).
Proof.
  assert (Ha : constructed_version
                 (mkVersion (IInt 1) (IInt 4) (IInt 0)
                     (mkSegment (Some "rc") (Some 99))))
    by (exists (PInt 1), (PInt 4), (PInt 0), (Some "rc99"); reflexivity).
  assert (Hb : constructed_version (mkVersion (IInt 1) (IInt 4) (IInt 0)
                                       (mkSegment None None)))
    by (exists (PInt 1), (PInt 4), (PInt 0), None; reflexivity).
  destruct (release_between_pre_and_post _ _ Ha Hb eq_refl eq_refl) as (H & _).
  apply H; [reflexivity | simpl; auto | auto].
Defined.

Lemma segment_pattern_matches_witness :
  _SEGMENT_SPLIT_RE_match "rc12" = Some ("rc", "12").
Proof.
  apply (segment_pattern_matches "rc12" "rc" "12").
  repeat split; try reflexivity. left. reflexivity.
Defined.

(** ** Shape of the printed version *)

Lemma digits_version_chars (s : string) :
  forall_chars is_digit s = true -> forall_chars version_char s = true.
Proof.
  apply forall_chars_impl. intros c H. unfold version_char. now rewrite H.
Qed.

(** X16. The string printed for a constructed version whose three
    numbers are ints proper (no [bool]) of at most 4300 digits has three
    parts between dots when the segment is absent and four when it is
    present: the decimal digits of major, minor and patch, then the kind
    followed by the decimal digits of the number. It is made of digits,
    dots and lowercase letters only, so it has no whitespace, sign or
    path separator. *)
Theorem printed_version_shape (v : Version)
  (Hv : constructed_version v) (Hp : plain_version v) :
  exists s,
    SemanticVersion.__str__ v = Ok s /\
    forall_chars version_char s = true /\
    forall_chars is_digit (decimal (_major v)) = true /\
    forall_chars is_digit (decimal (_minor v)) = true /\
    forall_chars is_digit (decimal (_patch v)) = true /\
    ((_kind (_segment v) = None /\
      split "." s
      = [decimal (_major v); decimal (_minor v); decimal (_patch v)]) \/
     (exists k n,
         _kind (_segment v) = Some k /\ _number (_segment v) = Some n /\
         In k kinds /\ forall_chars is_digit (decimal n) = true /\
         split "." s
         = [decimal (_major v); decimal (_minor v); decimal (_patch v);
            k ++ decimal n])).
Proof.
  pose proof (constructed_version_segment v Hv) as [value Hs].
  destruct Hp as (PM & Pm & Pp).
  destruct v as [M m p sg]. cbn [_major _minor _patch _segment] in *.
  destruct PM as (a & -> & Ha & La), Pm as (b & -> & Hb & Lb),
      Pp as (c & -> & Hc & Lc).
  cbn [int_value].
  destruct (decimal_spec _ Ha) as (DM & _ & _).
  destruct (decimal_spec _ Hb) as (Dm & _ & _).
  destruct (decimal_spec _ Hc) as (Dp & _ & _).
  apply segment_init_ok in Hs as [[_ ->]|Hs].
  - exists (decimal a ++ "." ++ decimal b ++ "." ++ decimal c).
    split; [|split; [|repeat split; try assumption]].
    + rewrite str_of_three by (eexists; eauto). reflexivity.
    + rewrite !forall_chars_app, (digits_version_chars _ DM),
        (digits_version_chars _ Dm), (digits_version_chars _ Dp).
      reflexivity.
    + left. split; [reflexivity|].
      apply split_three; now apply digits_no_dot.
  - destruct Hs as (x & g0 & g1 & n & _ & _ & Hk & Hpi & Hn & ->).
    assert (Hin : In g0 kinds).
    { unfold kinds. simpl.
      destruct Hk as [-> | [-> | [-> | [-> | ->]]]]; auto 6. }
    destruct (decimal_spec n Hn) as (Dn & Nn & _).
    destruct (kind_digits_slot g0 (decimal n) Hin Dn Nn) as (Hdot & _).
    exists (decimal a ++ "." ++ decimal b ++ "." ++ decimal c ++ "."
            ++ g0 ++ decimal n).
    split; [|split; [|repeat split; try assumption]].
    + unfold SemanticVersion.__str__, SemanticVersion.segment,
        SemanticVersion.major, SemanticVersion.minor, SemanticVersion.patch.
      cbn [_segment _major _minor _patch _Segment.isnone _Segment.kind
           _Segment.number _kind _number is_None Bool.eqb negb bind app
           mapM SemanticVersion.str_elt str_pyint].
      rewrite !str_int_nonneg by assumption. cbn [bind].
      unfold _Segment.__str__.
      cbn [_Segment.isnone _Segment.kind _Segment.number _kind _number
           is_None Bool.eqb negb bind fmt_number fmt_kind].
      rewrite (str_int_nonneg n Hn (py_int_bound _ _ Hpi)). reflexivity.
    + rewrite !forall_chars_app, (digits_version_chars _ DM),
        (digits_version_chars _ Dm), (digits_version_chars _ Dp),
        (digits_version_chars _ Dn).
      cbn [forall_chars andb].
      destruct Hk as [-> | [-> | [-> | [-> | ->]]]]; reflexivity.
    + right. exists g0, n. cbn [_kind _number].
      repeat split; try assumption.
      apply split_four; (assumption || now apply digits_no_dot).
Qed.

Lemma printed_version_shape_witness :
  exists s,
    SemanticVersion.__str__
      (mkVersion (IInt 3) (IInt 11) (IInt 2) (mkSegment None None)) = Ok s /\
    forall_chars version_char s = true.
Proof.
  assert (Hv : constructed_version
                 (mkVersion (IInt 3) (IInt 11) (IInt 2) (mkSegment None None)))
    by (exists (PInt 3), (PInt 11), (PInt 2), None; reflexivity).
  assert (Hp : plain_version
                 (mkVersion (IInt 3) (IInt 11) (IInt 2) (mkSegment None None)))
    by (repeat split; eexists; (split; [reflexivity|]);
        (split; [lia | apply Z.leb_le; reflexivity])).
  destruct (printed_version_shape _ Hv Hp) as (s & Hs & Hc & _).
  exists s. split; assumption.
Defined.
